(** * MoniClear: the financial record, its store adapter, the session state
      holder and the aggregation engine, embedded from the TypeScript sources.

    - [types.ts]                      -> the records of section "Data model";
    - [services/firestoreService.ts]  -> [Module FirestoreService];
    - [contexts/AuthContext.tsx]      -> [Module AuthContext];
    - [App.tsx]                       -> [Module App].

    A JavaScript [number] is an IEEE 754 binary64 value: it is modelled by
    Rocq's primitive [float], whose [+], [-] and comparisons are the same
    operations.  [localStorage] is a finite map from strings to strings, the
    remote document store a finite map from user ids to documents. *)

From Stdlib Require Import Floats.PrimFloat Floats.SpecFloat Floats.FloatOps Floats.FloatAxioms.
From Stdlib Require Import List Bool Arith Lia.
From stdpp Require Import base option list gmap strings.

Local Open Scope string_scope.
Local Open Scope list_scope.

(* ===================================================================== *)
(** ** Data model ([types.ts]) *)
(* ===================================================================== *)

Definition number : Type := float.

Inductive ExpenseCategory : Type :=
| Food | Transport | Rent | Entertainment | Shopping | Utilities | Other.

Inductive Priority : Type := Low | Medium | High.

Module IncomeHistory.
Record t : Type := mk { id : string; amount : number; date : string }.
End IncomeHistory.

(** [isDeposit?: boolean]: an optional field, [None] when it is missing
    ([undefined], which is falsy). *)
Module Bill.
Record t : Type := mk {
    id : string;
    name : string;
    amount : number;
    dueDate : string;
    isPaid : bool;
    isDeposit : option bool
  }.
End Bill.

Module WishlistItem.
Record t : Type := mk {
    id : string;
    name : string;
    price : number;
    priority : Priority;
    isPinned : option bool
  }.
End WishlistItem.

Module Expense.
Record t : Type := mk {
    id : string;
    description : string;
    amount : number;
    category : ExpenseCategory;
    date : string
  }.
End Expense.

Record AppData : Type := mkAppData {
  weeklyEstimate : number;
  incomeHistory : list IncomeHistory.t;
  bills : list Bill.t;
  wishlist : list WishlistItem.t;
  expenses : list Expense.t
}.

(** The literal [{ weeklyEstimate: 0, incomeHistory: [], bills: [],
    wishlist: [], expenses: [] }], written out in [initializeUserData] and
    three times in [App.tsx]. *)
Definition defaultData : AppData :=
  {| weeklyEstimate := 0%float;
     incomeHistory := [];
     bills := [];
     wishlist := [];
     expenses := [] |}.

(** JavaScript truthiness of an optional boolean field. *)
Definition truthy (b : option bool) : bool :=
  match b with Some true => true | _ => false end.

(** The two keys of the durable local store. *)
Definition DATA_KEY : string := "wealthway_data_v2".
Definition GUEST_KEY : string := "moniclear_guest_user".

(* ===================================================================== *)
(** ** The world the services act on, and a small monad for their effects *)
(* ===================================================================== *)

(** The calls made to the two stores, in the order they are made. *)
Inductive Call : Type :=
| GetDoc (userId : string) (resolved : bool)
| SetDoc (userId : string) (data : AppData) (resolved : bool)
| RemoveItem (key : string).

(** [firestore]: the document [users/{userId}/financialData/main] of every
    user that has one.  [network]: whether each of the coming remote calls
    resolves ([true]) or rejects ([false]), first call first; when the list
    is used up the calls resolve.  [calls]: the history of store calls. *)
Record Env : Type := mkEnv {
  firestore : gmap string AppData;
  localStorage : gmap string string;
  network : list bool;
  calls : list Call
}.

Inductive Outcome (A : Type) : Type :=
| Ret (a : A)
| Throw (e : string).
Arguments Ret {A} a.
Arguments Throw {A} e.

(** An asynchronous computation: it runs on the world and either returns or
    throws; what it did to the world before throwing stays done. *)
Definition IO (A : Type) : Type := Env -> Outcome A * Env.

Definition ret {A} (a : A) : IO A := fun w => (Ret a, w).
Definition throw {A} (e : string) : IO A := fun w => (Throw e, w).
Definition bind {A B} (m : IO A) (k : A -> IO B) : IO B :=
  fun w => match m w with
           | (Ret a, w') => k a w'
           | (Throw e, w') => (Throw e, w')
           end.
(** [try { m } catch (error) { h error }] *)
Definition try_catch {A} (m : IO A) (h : string -> IO A) : IO A :=
  fun w => match m w with
           | (Ret a, w') => (Ret a, w')
           | (Throw e, w') => h e w'
           end.

Declare Scope io_scope.
Delimit Scope io_scope with io.
Notation "x <- m ;; k" := (bind m (fun x => k))
  (at level 100, m at next level, right associativity) : io_scope.
Notation "m ;;; k" := (bind m (fun _ => k))
  (at level 100, right associativity) : io_scope.

(** The next remote call's fate. *)
Definition next_outcome (net : list bool) : bool * list bool :=
  match net with
  | [] => (true, [])
  | b :: net' => (b, net')
  end.

(** [getDoc(ref)]: the snapshot of the user's document, [None] when
    [exists()] is false. *)
Definition getDoc (userId : string) : IO (option AppData) :=
  fun w =>
    let (ok, net) := next_outcome (network w) in
    let w' := {| firestore := firestore w; localStorage := localStorage w;
                 network := net; calls := calls w ++ [GetDoc userId ok] |} in
    if ok then (Ret (firestore w !! userId), w')
    else (Throw "getDoc rejected", w').

(** [setDoc(ref, data)]: full overwrite of the user's document.
    [initializeUserData] passes [{ merge: true }] with a document that has
    all five fields of [AppData], so there too every field is replaced. *)
Definition setDoc (userId : string) (data : AppData) : IO unit :=
  fun w =>
    let (ok, net) := next_outcome (network w) in
    if ok then
      (Ret tt, {| firestore := <[userId := data]> (firestore w);
                  localStorage := localStorage w;
                  network := net;
                  calls := calls w ++ [SetDoc userId data true] |})
    else
      (Throw "setDoc rejected",
       {| firestore := firestore w; localStorage := localStorage w;
          network := net; calls := calls w ++ [SetDoc userId data false] |}).

Definition localStorage_getItem (key : string) : IO (option string) :=
  fun w => (Ret (localStorage w !! key), w).

Definition localStorage_removeItem (key : string) : IO unit :=
  fun w => (Ret tt, {| firestore := firestore w;
                       localStorage := delete key (localStorage w);
                       network := network w;
                       calls := calls w ++ [RemoveItem key] |}).

Definition localStorage_setItem (key value : string) : IO unit :=
  fun w => (Ret tt, {| firestore := firestore w;
                       localStorage := <[key := value]> (localStorage w);
                       network := network w;
                       calls := calls w |}).

(* ===================================================================== *)
(** ** [services/firestoreService.ts] *)
(* ===================================================================== *)

Module FirestoreService.
Section WithJSON.

  (** [JSON.parse], a host function: [None] when it throws a SyntaxError.
      The source casts its result to [AppData] without checking it. *)
Variable JSON_parse : string -> option AppData.

Definition parseJSON (s : string) : IO AppData :=
    match JSON_parse s with
    | Some d => ret d
    | None => throw "SyntaxError"
    end.

Definition initializeUserData (userId : string) : IO AppData :=
    (setDoc userId defaultData ;;;
     ret defaultData)%io.

Definition getUserData (userId : string) : IO (option AppData) :=
    try_catch
      (docSnap <- getDoc userId ;;
       match docSnap with
       | Some d => ret (Some d)
       | None => (d <- initializeUserData userId ;; ret (Some d))
       end)%io
      (fun _ => ret None).

Definition saveUserData (userId : string) (data : AppData) : IO bool :=
    try_catch
      (setDoc userId data ;;; ret true)%io
      (fun _ => ret false).

  (** [existingData.bills.length > 0 || existingData.expenses.length > 0 ||
       existingData.wishlist.length > 0 || existingData.incomeHistory.length > 0] *)
Definition hasAnySequence (d : AppData) : bool :=
    ((0 <? length (bills d))%nat || (0 <? length (expenses d))%nat ||
     (0 <? length (wishlist d))%nat || (0 <? length (incomeHistory d))%nat)%bool.

  (** [!localData]: [null] and the empty string are falsy. *)
Definition falsy_string (s : option string) : bool :=
    match s with
    | None => true
    | Some s => if decide (s = "") then true else false
    end.

Definition migrateLocalDataToFirestore (userId : string) : IO bool :=
    try_catch
      (localData <- localStorage_getItem DATA_KEY ;;
       if falsy_string localData then ret true
       else
         parsedData <- parseJSON (default "" localData) ;;
         existingData <- getUserData userId ;;
         if match existingData with
            | Some d => hasAnySequence d
            | None => false
            end
         then ret true
         else
           saveUserData userId parsedData ;;;
           localStorage_removeItem DATA_KEY ;;;
           ret true)%io
      (fun _ => ret false).

End WithJSON.
End FirestoreService.

(* ===================================================================== *)
(** ** [contexts/AuthContext.tsx]: the session state holder *)
(* ===================================================================== *)

(** What the application reads of the identity provider's [User]. *)
Record User : Type := mkUser { uid : string; emailVerified : bool }.

Module AuthContext.

  (** The three [useState] cells of [AuthProvider], then what they live in:
      [listening] says whether the [onAuthStateChanged] subscription made by
      the effect is attached, [currentUser] is the identity provider's own
      session ([auth.currentUser]), [env] holds the two stores. *)
Record State : Type := mkState {
    user : option User;
    loading : bool;
    isGuest : bool;
    listening : bool;
    currentUser : option User;
    env : Env
  }.

Definition setUser (u : option User) (st : State) : State :=
    mkState u (loading st) (isGuest st) (listening st) (currentUser st) (env st).
Definition setLoading (b : bool) (st : State) : State :=
    mkState (user st) b (isGuest st) (listening st) (currentUser st) (env st).
Definition setIsGuest (b : bool) (st : State) : State :=
    mkState (user st) (loading st) b (listening st) (currentUser st) (env st).
Definition setListening (b : bool) (st : State) : State :=
    mkState (user st) (loading st) (isGuest st) b (currentUser st) (env st).
Definition setCurrentUser (u : option User) (st : State) : State :=
    mkState (user st) (loading st) (isGuest st) (listening st) u (env st).
Definition setEnv (w : Env) (st : State) : State :=
    mkState (user st) (loading st) (isGuest st) (listening st) (currentUser st) w.

  (** Run a store computation on the state's stores, dropping its result. *)
Definition exec {A} (m : IO A) (st : State) : State :=
    setEnv (snd (m (env st))) st.

  (** What an awaited call to the identity provider comes back with. *)
Inductive Reply : Type :=
  | Resolved (u : User)
  | Rejected (e : string).

Section WithJSON.

Variable JSON_parse : string -> option AppData.

  (** The callback given to [onAuthStateChanged]:
      [setUser(user); if (user && !isGuest) { try { await migrate... } catch
      {} } setLoading(false)]. *)
Definition authStateCallback (u : option User) (st : State) : State :=
    let st := setUser u st in
    let st :=
      match u with
      | Some usr =>
          if negb (isGuest st)
          then exec (FirestoreService.migrateLocalDataToFirestore
                       JSON_parse (uid usr)) st
          else st
      | None => st
      end in
    setLoading false st.

  (** The identity provider tells an attached observer about its session. *)
Definition notify (st : State) : State :=
    if listening st then authStateCallback (currentUser st) st else st.

  (** A credential was accepted (or the session ended): the provider's
      session changes and the observer, when attached, is called. *)
Definition providerSession (u : option User) (st : State) : State :=
    notify (setCurrentUser u st).

  (** The body of [useEffect(..., [isGuest])], after the cleanup of its
      previous run ([unsubscribe]). *)
Definition effect (st : State) : State :=
    let st := setListening false st in
    if decide (localStorage (env st) !! GUEST_KEY = Some "true") then
      setLoading false (setIsGuest true st)
    else
      notify (setListening true st).

  (** The effect runs again whenever [isGuest] differs from the value it had
      at the previous commit; one render later nothing changes any more. *)
Definition commit (before : bool) (st : State) : State :=
    if Bool.eqb before (isGuest st) then st
    else
      let st1 := effect st in
      if Bool.eqb (isGuest st) (isGuest st1) then st1 else effect st1.

  (** First render of [AuthProvider]: fresh React state over the durable
      stores and the provider's cached session, then the effect. *)
Definition mount (cached : option User) (w : Env) : State :=
    let st := mkState None true false false cached w in
    let st1 := effect st in
    if Bool.eqb (isGuest st) (isGuest st1) then st1 else effect st1.

  (** The part shared by the four sign-in operations, once the provider has
      accepted: [setIsGuest(false); localStorage.removeItem(...)], then
      [finally { setLoading(false) }]. *)
Definition signedIn (st : State) : State :=
    let before := isGuest st in
    let st := setIsGuest false st in
    let st := exec (localStorage_removeItem GUEST_KEY) st in
    commit before (setLoading false st).

Definition signInWithGoogle (popup : Reply) (st : State)
    : Outcome unit * State :=
    let st := setLoading true st in
    match popup with
    | Resolved u => (Ret tt, signedIn (providerSession (Some u) st))
    | Rejected e => (Throw e, setLoading false st)
    end.

Definition signInWithEmail (reply : Reply) (st : State)
    : Outcome unit * State :=
    let st := setLoading true st in
    match reply with
    | Resolved u => (Ret tt, signedIn (providerSession (Some u) st))
    | Rejected e => (Throw e, setLoading false st)
    end.

  (** [createUserWithEmailAndPassword] signs the new user in; only then is
      [sendEmailVerification] awaited, inside the same [try]. *)
Definition signUpWithEmail (created : Reply) (verificationSent : bool)
      (st : State) : Outcome unit * State :=
    let st := setLoading true st in
    match created with
    | Resolved u =>
        let st := providerSession (Some u) st in
        if verificationSent then (Ret tt, signedIn st)
        else (Throw "sendEmailVerification rejected", setLoading false st)
    | Rejected e => (Throw e, setLoading false st)
    end.

  (** [signInWithPhoneNumber] resolves with a confirmation handle, which the
      source drops: the provider's session does not change. *)
Definition signInWithPhone (challengeIssued : bool) (st : State)
    : Outcome unit * State :=
    let st := setLoading true st in
    if challengeIssued then (Ret tt, signedIn st)
    else (Throw "signInWithPhoneNumber rejected", setLoading false st).

Definition signInAsGuest (st : State) : State :=
    let before := isGuest st in
    let st := setIsGuest true st in
    let st := setUser None st in
    let st := exec (localStorage_setItem GUEST_KEY "true") st in
    commit before (setLoading false st).

  (** [firestoreService.cleanup()] only detaches document listeners, which
      are no part of this state. *)
Definition logout (signedOut : bool) (st : State) : Outcome unit * State :=
    let before := isGuest st in
    let signOut :=
      if negb (isGuest st) then
        if signedOut then Some (providerSession None st) else None
      else Some st in
    match signOut with
    | Some st =>
        let st := setUser None st in
        let st := setIsGuest false st in
        let st := exec (localStorage_removeItem GUEST_KEY) st in
        (Ret tt, commit before st)
    | None => (Throw "signOut rejected", st)
    end.

Definition resetPassword (sent : bool) (st : State) : Outcome unit * State :=
    if sent then (Ret tt, st) else (Throw "sendPasswordResetEmail rejected", st).

Definition sendVerificationEmail (sent : bool) (st : State)
    : Outcome unit * State :=
    match user st with
    | Some u =>
        if negb (emailVerified u) then
          if sent then (Ret tt, st)
          else (Throw "sendEmailVerification rejected", st)
        else (Ret tt, st)
    | None => (Ret tt, st)
    end.

Definition migrateUserData (st : State) : Outcome bool * State :=
    match user st with
    | Some u =>
        if negb (isGuest st) then
          let (r, w) := FirestoreService.migrateLocalDataToFirestore
                          JSON_parse (uid u) (env st) in
          (r, setEnv w st)
        else (Ret true, st)
    | None => (Ret true, st)
    end.

  (** Everything that can happen to a mounted [AuthProvider]. *)
Inductive Event : Type :=
  | SignInWithGoogle (popup : Reply)
  | SignInWithEmail (reply : Reply)
  | SignUpWithEmail (created : Reply) (verificationSent : bool)
  | SignInWithPhone (challengeIssued : bool)
  | SignInAsGuest
  | Logout (signedOut : bool)
  | ResetPassword (sent : bool)
  | SendVerificationEmail (sent : bool)
  | MigrateUserData
  | SessionChanged (u : option User)
  | Reload.

Definition handle (ev : Event) (st : State) : Outcome unit * State :=
    match ev with
    | SignInWithGoogle r => signInWithGoogle r st
    | SignInWithEmail r => signInWithEmail r st
    | SignUpWithEmail r v => signUpWithEmail r v st
    | SignInWithPhone c => signInWithPhone c st
    | SignInAsGuest => (Ret tt, signInAsGuest st)
    | Logout s => logout s st
    | ResetPassword s => resetPassword s st
    | SendVerificationEmail s => sendVerificationEmail s st
    | MigrateUserData => (Ret tt, snd (migrateUserData st))
    | SessionChanged u => (Ret tt, providerSession u st)
    | Reload => (Ret tt, mount (currentUser st) (env st))
    end.

Definition step (st : State) (ev : Event) : State := snd (handle ev st).

Definition run (st : State) (evs : list Event) : State :=
    fold_left step evs st.

  (** The sign-in operations, when they succeed. *)
Definition successfulSignIn (ev : Event) : bool :=
    match ev with
    | SignInWithGoogle (Resolved _) => true
    | SignInWithEmail (Resolved _) => true
    | SignUpWithEmail (Resolved _) true => true
    | SignInWithPhone true => true
    | _ => false
    end.

  (** The credential operations, when they throw to their caller. *)
Definition failed (ev : Event) (st : State) : bool :=
    match fst (handle ev st) with
    | Throw _ => true
    | Ret _ => false
    end.

Definition isGuestEntry (ev : Event) : bool :=
    match ev with SignInAsGuest => true | _ => false end.

End WithJSON.
End AuthContext.

(* ===================================================================== *)
(** ** [App.tsx]: aggregation engine, mutations and the save effect *)
(* ===================================================================== *)

Module App.

  (** *** Derived totals (the [useMemo] block) *)

Definition totalHistoryIncome (data : AppData) : number :=
    fold_left (fun acc curr => (acc + IncomeHistory.amount curr)%float)
              (incomeHistory data) 0%float.

Definition totalExpenses (data : AppData) : number :=
    fold_left (fun acc curr => (acc + Expense.amount curr)%float)
              (expenses data) 0%float.

Definition totalUnpaidBills (data : AppData) : number :=
    fold_left (fun acc curr => (acc + Bill.amount curr)%float)
              (List.filter (fun b => negb (Bill.isPaid b)) (bills data))
              0%float.

Definition totalPaidBills (data : AppData) : number :=
    fold_left (fun acc curr => (acc + Bill.amount curr)%float)
              (List.filter (fun b => Bill.isPaid b) (bills data))
              0%float.

Definition totalHeldDeposits (data : AppData) : number :=
    fold_left (fun acc curr => (acc + Bill.amount curr)%float)
              (List.filter
                 (fun b => Bill.isPaid b && truthy (Bill.isDeposit b))
                 (bills data))
              0%float.

Definition confirmedBalance (data : AppData) : number :=
    (totalHistoryIncome data - totalExpenses data - totalPaidBills data)%float.

Definition projectedBalance (data : AppData) : number :=
    (confirmedBalance data + weeklyEstimate data)%float.

Definition totalNetWorth (data : AppData) : number :=
    (confirmedBalance data + totalHeldDeposits data)%float.

Definition pinnedWishlistItems (data : AppData) : list WishlistItem.t :=
    List.filter (fun item => truthy (WishlistItem.isPinned item))
                (wishlist data).

  (** The sum the specification describes, read off its words: go through
      the bills and add the amount of each one that is both paid and a
      deposit. *)
Fixpoint sumPaidDeposits (acc : number) (bs : list Bill.t) : number :=
    match bs with
    | [] => acc
    | b :: bs' =>
        match Bill.isPaid b, Bill.isDeposit b with
        | true, Some true => sumPaidDeposits (acc + Bill.amount b)%float bs'
        | _, _ => sumPaidDeposits acc bs'
        end
    end.

  (** *** Mutations: the functions handed to [setData].  Fresh ids
      ([generateId()]) and today's date come from the host and are
      arguments; so are the numbers [parseFloat] made of the form fields. *)

Definition togglePin (id : string) (prev : AppData) : AppData :=
    {| weeklyEstimate := weeklyEstimate prev;
       incomeHistory := incomeHistory prev;
       bills := bills prev;
       wishlist :=
         map (fun item =>
                if decide (WishlistItem.id item = id) then
                  WishlistItem.mk (WishlistItem.id item)
                    (WishlistItem.name item) (WishlistItem.price item)
                    (WishlistItem.priority item)
                    (Some (negb (truthy (WishlistItem.isPinned item))))
                else item)
             (wishlist prev);
       expenses := expenses prev |}.

Definition markWishlistAsPurchased (generatedId today : string)
      (item : WishlistItem.t) (prev : AppData) : AppData :=
    {| weeklyEstimate := weeklyEstimate prev;
       incomeHistory := incomeHistory prev;
       bills := bills prev;
       wishlist :=
         List.filter
           (fun i => if decide (WishlistItem.id i = WishlistItem.id item)
                     then false else true)
           (wishlist prev);
       expenses :=
         expenses prev ++
         [ {| Expense.id := String.append "purchased-" generatedId;
              Expense.description :=
                String.append "Wishlist: " (WishlistItem.name item);
              Expense.amount := WishlistItem.price item;
              Expense.category := Shopping;
              Expense.date := today |} ] |}.

  (** [x || 0] on numbers: [NaN], [0] and [-0] are falsy. *)
Definition orZero (x : number) : number :=
    if is_nan x || is_zero x then 0%float else x.

  (** "Save Forecast". *)
Definition saveForecast (parsed : number) (prev : AppData) : AppData :=
    {| weeklyEstimate := orZero parsed;
       incomeHistory := incomeHistory prev;
       bills := bills prev;
       wishlist := wishlist prev;
       expenses := expenses prev |}.

  (** "Marked Paid": [None] when the handler does not call [setData]. *)
Definition addIncome (parsed : number) (generatedId today : string)
      (prev : AppData) : option AppData :=
    let amt := orZero parsed in
    if (0 <? amt)%float then
      Some {| weeklyEstimate := 0%float;
              incomeHistory :=
                incomeHistory prev ++
                [ IncomeHistory.mk generatedId amt today ];
              bills := bills prev;
              wishlist := wishlist prev;
              expenses := expenses prev |}
    else None.

Definition nonEmpty (s : string) : bool :=
    if decide (s = "") then false else true.

  (** "Add Commitment": [if (nameVal && !isNaN(amtVal))]. *)
Definition addBill (nameVal : string) (amtVal : number)
      (dateVal generatedId : string) (prev : AppData) : option AppData :=
    if nonEmpty nameVal && negb (is_nan amtVal) then
      Some {| weeklyEstimate := weeklyEstimate prev;
              incomeHistory := incomeHistory prev;
              bills :=
                bills prev ++
                [ Bill.mk generatedId nameVal amtVal dateVal false None ];
              wishlist := wishlist prev;
              expenses := expenses prev |}
    else None.

  (** "Record Spend": [if (descVal && !isNaN(amtVal))]. *)
Definition addExpense (descVal : string) (amtVal : number)
      (catVal : ExpenseCategory) (generatedId today : string)
      (prev : AppData) : option AppData :=
    if nonEmpty descVal && negb (is_nan amtVal) then
      Some {| weeklyEstimate := weeklyEstimate prev;
              incomeHistory := incomeHistory prev;
              bills := bills prev;
              wishlist := wishlist prev;
              expenses :=
                expenses prev ++
                [ Expense.mk generatedId descVal amtVal catVal today ] |}
    else None.

  (** "Add to Wishlist": [cleanPrice] is [parseFloat] of the price field
      with every character outside [0-9.] removed. *)
Definition addWishlist (nameVal : string) (cleanPrice : number)
      (generatedId : string) (prev : AppData) : option AppData :=
    if nonEmpty nameVal && negb (is_nan cleanPrice) then
      Some {| weeklyEstimate := weeklyEstimate prev;
              incomeHistory := incomeHistory prev;
              bills := bills prev;
              wishlist :=
                wishlist prev ++
                [ WishlistItem.mk generatedId nameVal cleanPrice Medium
                    (Some false) ];
              expenses := expenses prev |}
    else None.

  (** *** The component state and its effects *)

  (** A pending [setTimeout]: when it is due and the closure it will run,
      [saveUserData(user.uid, data)] with the values of the render that set
      it. *)
Record Timer : Type := mkTimer {
    due : nat;
    savedFor : string;
    saved : AppData
  }.

  (** [data] and [isLoadingData] are the component's own state; [user] and
      [isGuest] come from [useAuth()]; [timeoutId] is the timeout the last
      run of the save effect left pending; [now] is the clock in
      milliseconds. *)
Record State : Type := mkState {
    data : AppData;
    isLoadingData : bool;
    user : option User;
    isGuest : bool;
    timeoutId : option Timer;
    now : nat;
    env : Env
  }.

  (** [useEffect(..., [data, user, isGuest, isLoadingData])]: the cleanup of
      the previous run ([clearTimeout]) and then the body. *)
Definition saveEffect (st : State) : State :=
    let pending :=
      match user st with
      | Some u =>
          if negb (isGuest st) && negb (isLoadingData st)
          then Some (mkTimer (now st + 500) (uid u) (data st))
          else None
      | None => None
      end in
    mkState (data st) (isLoadingData st) (user st) (isGuest st)
            pending (now st) (env st).

  (** [setData(prev => f(prev))]: a new record object, so the save effect
      runs again. *)
Definition setData (f : AppData -> AppData) (st : State) : State :=
    saveEffect
      (mkState (f (data st)) (isLoadingData st) (user st) (isGuest st)
               (timeoutId st) (now st) (env st)).

Definition setIsLoadingData (b : bool) (st : State) : State :=
    saveEffect
      (mkState (data st) b (user st) (isGuest st)
               (timeoutId st) (now st) (env st)).

  (** Time passes; a timeout that has become due runs its closure. *)
Definition advance (dt : nat) (st : State) : State :=
    let t := now st + dt in
    match timeoutId st with
    | Some tm =>
        if (due tm <=? t)%nat then
          mkState (data st) (isLoadingData st) (user st) (isGuest st)
                  None t
                  (snd (FirestoreService.saveUserData
                          (savedFor tm) (saved tm) (env st)))
        else
          mkState (data st) (isLoadingData st) (user st) (isGuest st)
                  (timeoutId st) t (env st)
    | None =>
        mkState (data st) (isLoadingData st) (user st) (isGuest st)
                None t (env st)
    end.

  (** The listener given to [listenForUserData]. *)
Definition onSnapshot (firestoreData : option AppData) (st : State) : State :=
    setIsLoadingData false
      (setData (fun _ => default defaultData firestoreData) st).

Section WithJSON.

Variable JSON_parse : string -> option AppData.

  (** The guest branch of [loadData]: read the local entry, or fall back to
      the empty record.  When [JSON.parse] throws, [loadData] stops there. *)
Definition loadGuestData (st : State) : State :=
    let st := setIsLoadingData true st in
    match localStorage (env st) !! DATA_KEY with
    | Some s =>
        if nonEmpty s then
          match JSON_parse s with
          | Some parsedData =>
              setIsLoadingData false (setData (fun _ => parsedData) st)
          | None => st
          end
        else setIsLoadingData false (setData (fun _ => defaultData) st)
    | None => setIsLoadingData false (setData (fun _ => defaultData) st)
    end.

  (** The component as [App] renders it for a guest session. *)
Definition mountGuest (w : Env) : State :=
    loadGuestData (mkState defaultData true None true None 0 w).

End WithJSON.

  (** A burst of mutations: each one followed by the time that passes
      before the next. *)
Definition burst (ms : list ((AppData -> AppData) * nat)) (st : State) : State :=
    fold_left (fun s m => advance (snd m) (setData (fst m) s)) ms st.

Definition applyAll (ms : list ((AppData -> AppData) * nat)) (d : AppData)
    : AppData :=
    fold_left (fun x m => fst m x) ms d.

Definition elapsed (ms : list ((AppData -> AppData) * nat)) : nat :=
    fold_right (fun m n => snd m + n) 0 ms.

End App.

(* ===================================================================== *)
(** ** Vocabulary of the statements, and the sample session they are
       evaluated on *)
(* ===================================================================== *)

(** Every remote call that is still to come resolves. *)
Definition allResolve (net : list bool) : Prop := Forall (fun b => b = true) net.

(** The guest record of the specification's example: one bill [b1] of 50. *)
Definition sampleLocal : AppData :=
  {| weeklyEstimate := 0%float;
     incomeHistory := [];
     bills := [ Bill.mk "b1" "Rent" 50%float "2024-05-01" false None ];
     wishlist := [];
     expenses := [] |}.

(** A remote record that already holds an expense. *)
Definition sampleRemote : AppData :=
  {| weeklyEstimate := 0%float;
     incomeHistory := [];
     bills := [];
     wishlist := [];
     expenses := [ Expense.mk "e1" "Lunch" 12%float Food "2024-04-30" ] |}.

(** A remote record with only a forecast: no sequence has an entry. *)
Definition sampleForecastOnly : AppData :=
  {| weeklyEstimate := 300%float;
     incomeHistory := [];
     bills := [];
     wishlist := [];
     expenses := [] |}.

(** The text the sample guest record is stored as, and a [JSON.parse] that
    knows this one text. *)
Definition sampleJSON : string := "{sampleLocal}".
Definition sampleParse (s : string) : option AppData :=
  if decide (s = sampleJSON) then Some sampleLocal else None.

Definition sampleEnv (remote : option AppData) (local : option string)
    (net : list bool) : Env :=
  {| firestore := match remote with
                  | Some d => <["u1" := d]> ∅
                  | None => ∅
                  end;
     localStorage := match local with
                     | Some s => <[DATA_KEY := s]> ∅
                     | None => ∅
                     end;
     network := net;
     calls := [] |}.

(** The two balance identities and the meaning of the held deposits, for
    one record. *)
Definition identities (d : AppData) : Prop :=
  App.confirmedBalance d
    = (App.totalHistoryIncome d - App.totalExpenses d - App.totalPaidBills d)%float /\
  App.totalNetWorth d = (App.confirmedBalance d + App.totalHeldDeposits d)%float /\
  App.totalHeldDeposits d = App.sumPaidDeposits 0%float (bills d).


(** A record with a paid deposit, a paid bill and an unpaid one, and the
    same record with its bills in another order. *)
Definition sampleBills : AppData :=
  {| weeklyEstimate := 0%float;
     incomeHistory := [ IncomeHistory.mk "i1" 1000%float "2024-04-01" ];
     bills := [ Bill.mk "b1" "Deposit" 400%float "2024-04-02" true (Some true);
                Bill.mk "b2" "Power" 60%float "2024-04-03" true None;
                Bill.mk "b3" "Water" 30%float "2024-04-04" false (Some true) ];
     wishlist := [];
     expenses := [ Expense.mk "e1" "Lunch" 12%float Food "2024-04-05" ] |}.

Definition sampleBillsReordered : AppData :=
  {| weeklyEstimate := 0%float;
     incomeHistory := incomeHistory sampleBills;
     bills := [ Bill.mk "b3" "Water" 30%float "2024-04-04" false (Some true);
                Bill.mk "b1" "Deposit" 400%float "2024-04-02" true (Some true);
                Bill.mk "b2" "Power" 60%float "2024-04-03" true None ];
     wishlist := [];
     expenses := expenses sampleBills |}.

(** [t] occurs in [s]. *)
Definition contains (s t : string) : Prop :=
  exists pre post : string, s = String.append pre (String.append t post).

(** The wishlist of the specification's example: the bike [w1] at 120,
    and a second item. *)
Definition sampleBike : WishlistItem.t :=
  WishlistItem.mk "w1" "Bike" 120%float Medium (Some false).

Definition sampleWishlist : AppData :=
  {| weeklyEstimate := 25%float;
     incomeHistory := [ IncomeHistory.mk "i1" 1000%float "2024-04-01" ];
     bills := [ Bill.mk "b2" "Power" 60%float "2024-04-03" true None ];
     wishlist := [ sampleBike;
                   WishlistItem.mk "w2" "Lamp" 35%float Low None ];
     expenses := [ Expense.mk "e1" "Lunch" 12%float Food "2024-04-05" ] |}.

(** "Add Commitment" with the amount field reading [-5], and "Record Spend"
    with the same amount: [parseFloat("-5")] is [-5]. *)
Definition sampleNegativeBill : option AppData :=
  App.addBill "Refund" (-5)%float "2024-05-01" "b9" defaultData.

Definition sampleNegativeExpense : option AppData :=
  App.addExpense "Refund" (-5)%float Other "e9" "2024-05-01" defaultData.

(** A guest opens the application on an empty local store, adds the bill of
    the sample record, and lets a second pass. *)
Definition guestAddsBill (st : App.State) : App.State :=
  App.advance 1000
    (App.setData
       (fun prev =>
          default prev (App.addBill "Rent" 50%float "2024-05-01" "b1" prev))
       st).

Definition sampleGuestSession : App.State :=
  guestAddsBill (App.mountGuest sampleParse (sampleEnv None None [])).

(** A signed-in session whose document has been loaded. *)
Definition sampleUser : User := mkUser "u1" true.

Definition sampleSignedIn : App.State :=
  App.mkState defaultData false (Some sampleUser) false None 0
              (sampleEnv (Some defaultData) None []).

(** Three mutations 100 ms apart, then a fourth one. *)
Definition sampleBurst : list ((AppData -> AppData) * nat) :=
  [ (App.saveForecast 10%float, 100);
    (App.saveForecast 20%float, 100);
    (App.saveForecast 30%float, 100) ].

(** A session that saves: signed in, not a guest, document loaded. *)
Definition saving (u : User) (st : App.State) : Prop :=
  App.user st = Some u /\ App.isGuest st = false /\ App.isLoadingData st = false.

(** The durable guest-session flag as the session state sees it. *)
Definition guestKey (st : AuthContext.State) : option string :=
  localStorage (AuthContext.env st) !! GUEST_KEY.

(** Guest and authenticated at once: [user != null && isGuest == true]. *)
Definition guestAndUser (st : AuthContext.State) : Prop :=
  AuthContext.user st <> None /\ AuthContext.isGuest st = true.

(** What holds of every state of a mounted [AuthProvider]: a guest has no
    user, no attached observer and the durable flag; and the durable flag
    is only set for a guest. *)
Definition coherent (st : AuthContext.State) : Prop :=
  (AuthContext.isGuest st = true ->
   AuthContext.user st = None /\ AuthContext.listening st = false /\
   guestKey st = Some "true") /\
  (guestKey st = Some "true" -> AuthContext.isGuest st = true).

(** What the effect needs to find in order to leave a coherent state: no
    user under the durable flag, no guest flag without it. *)
Definition ready (st : AuthContext.State) : Prop :=
  (guestKey st = Some "true" -> AuthContext.user st = None) /\
  (guestKey st <> Some "true" -> AuthContext.isGuest st = false).

(** A session that has left the guest state for good. *)
Definition signedOutOfGuest (st : AuthContext.State) : Prop :=
  AuthContext.isGuest st = false /\ guestKey st <> Some "true".

(** The login screen as first shown: nobody signed in, no guest flag. *)
Definition sampleUnauthenticated : AuthContext.State :=
  AuthContext.mount sampleParse None (sampleEnv None None []).

(** The account a sign-up creates. *)
Definition sampleNewUser : User := mkUser "u2" false.

(** A sign-up whose account is created and whose verification email is
    rejected. *)
Definition sampleFailedSignUp : Outcome unit * AuthContext.State :=
  AuthContext.signUpWithEmail sampleParse (AuthContext.Resolved sampleNewUser)
    false sampleUnauthenticated.

(** What the claim about guest saves asks of a guest session: the local
    entry holds the record that is in memory. *)
Definition guestRecordPersisted (JSON_parse : string -> option AppData)
    (st : App.State) : Prop :=
  exists s : string,
    localStorage (App.env st) !! DATA_KEY = Some s /\
    JSON_parse s = Some (App.data st).

(* ===================================================================== *)
(** ** [services/firestoreService.ts]: the registry of document listeners *)
(* ===================================================================== *)

Module Listeners.

(** [unsubscribeFunctions]: the [Map] from listener ids to the function
    that ends a subscription, here the subscription's number.
    [subscriptions]: the [onSnapshot] subscriptions that are live at the
    document store, each with the user whose document it observes.
    [issued]: how many subscriptions were ever made; the next one gets this
    number. *)
Record Service : Type := mkService {
  unsubscribeFunctions : gmap string nat;
  subscriptions : gmap nat string;
  issued : nat
}.

Definition fresh : Service := mkService ∅ ∅ 0.

(** [listenForUserData(userId, callback)]: subscribe, remember the
    unsubscribe function under [`user-${userId}`], return that id. *)
Definition listenForUserData (userId : string) (s : Service) : string * Service :=
  let listenerId := String.append "user-" userId in
  (listenerId,
   mkService (<[listenerId := issued s]> (unsubscribeFunctions s))
             (<[issued s := userId]> (subscriptions s))
             (S (issued s))).

(** [stopListening(listenerId)]: call and forget the function registered
    under the id, if there is one. *)
Definition stopListening (listenerId : string) (s : Service) : Service :=
  match unsubscribeFunctions s !! listenerId with
  | Some h =>
      mkService (delete listenerId (unsubscribeFunctions s))
                (delete h (subscriptions s))
                (issued s)
  | None => s
  end.

(** [cleanup()]: call every registered function, then clear the map. *)
Definition cleanup (s : Service) : Service :=
  mkService ∅
            (foldr (fun entry subs => delete (snd entry) subs)
                   (subscriptions s)
                   (map_to_list (unsubscribeFunctions s)))
            (issued s).

(** Every registered function belongs to a subscription that was made. *)
Definition wellFormed (s : Service) : Prop :=
  forall (listenerId : string) (h : nat),
    unsubscribeFunctions s !! listenerId = Some h -> h < issued s.

End Listeners.

(* ===================================================================== *)
(** ** [App.tsx]: the remaining mutations, and all of them as actions *)
(* ===================================================================== *)

Module Handlers.

(** The delete buttons: [prev.xs.filter(it => it.id !== x.id)]. *)
Definition deleteIncome (id : string) (prev : AppData) : AppData :=
  {| weeklyEstimate := weeklyEstimate prev;
     incomeHistory :=
       List.filter (fun item => if decide (IncomeHistory.id item = id)
                                then false else true)
                   (incomeHistory prev);
     bills := bills prev;
     wishlist := wishlist prev;
     expenses := expenses prev |}.

Definition deleteBill (id : string) (prev : AppData) : AppData :=
  {| weeklyEstimate := weeklyEstimate prev;
     incomeHistory := incomeHistory prev;
     bills :=
       List.filter (fun it => if decide (Bill.id it = id) then false else true)
                   (bills prev);
     wishlist := wishlist prev;
     expenses := expenses prev |}.

Definition deleteExpense (id : string) (prev : AppData) : AppData :=
  {| weeklyEstimate := weeklyEstimate prev;
     incomeHistory := incomeHistory prev;
     bills := bills prev;
     wishlist := wishlist prev;
     expenses :=
       List.filter (fun it => if decide (Expense.id it = id) then false else true)
                   (expenses prev) |}.

Definition deleteWishlist (id : string) (prev : AppData) : AppData :=
  {| weeklyEstimate := weeklyEstimate prev;
     incomeHistory := incomeHistory prev;
     bills := bills prev;
     wishlist :=
       List.filter (fun it => if decide (WishlistItem.id it = id)
                              then false else true)
                   (wishlist prev);
     expenses := expenses prev |}.

(** The check button of a bill:
    [prev.bills.map(it => it.id === b.id ? {...it, isPaid: !it.isPaid} : it)]. *)
Definition toggleBillPaid (id : string) (prev : AppData) : AppData :=
  {| weeklyEstimate := weeklyEstimate prev;
     incomeHistory := incomeHistory prev;
     bills :=
       map (fun it =>
              if decide (Bill.id it = id) then
                Bill.mk (Bill.id it) (Bill.name it) (Bill.amount it)
                        (Bill.dueDate it) (negb (Bill.isPaid it))
                        (Bill.isDeposit it)
              else it)
           (bills prev);
     wishlist := wishlist prev;
     expenses := expenses prev |}.

(** Every call of [setData] that a button of the application makes. *)
Inductive Action : Type :=
| SaveForecast (parsed : number)
| MarkPaid (parsed : number) (generatedId today : string)
| DeleteIncome (id : string)
| AddBill (nameVal : string) (amtVal : number) (dateVal generatedId : string)
| ToggleBillPaid (id : string)
| DeleteBill (id : string)
| AddExpense (descVal : string) (amtVal : number) (catVal : ExpenseCategory)
             (generatedId today : string)
| DeleteExpense (id : string)
| AddWishlist (nameVal : string) (cleanPrice : number) (generatedId : string)
| TogglePin (id : string)
| MarkWishlistAsPurchased (generatedId today : string) (item : WishlistItem.t)
| DeleteWishlist (id : string).

(** The record after the action; a handler that does not call [setData]
    leaves it as it is. *)
Definition perform (a : Action) (prev : AppData) : AppData :=
  match a with
  | SaveForecast parsed => App.saveForecast parsed prev
  | MarkPaid parsed generatedId today =>
      default prev (App.addIncome parsed generatedId today prev)
  | DeleteIncome id => deleteIncome id prev
  | AddBill nameVal amtVal dateVal generatedId =>
      default prev (App.addBill nameVal amtVal dateVal generatedId prev)
  | ToggleBillPaid id => toggleBillPaid id prev
  | DeleteBill id => deleteBill id prev
  | AddExpense descVal amtVal catVal generatedId today =>
      default prev (App.addExpense descVal amtVal catVal generatedId today prev)
  | DeleteExpense id => deleteExpense id prev
  | AddWishlist nameVal cleanPrice generatedId =>
      default prev (App.addWishlist nameVal cleanPrice generatedId prev)
  | TogglePin id => App.togglePin id prev
  | MarkWishlistAsPurchased generatedId today item =>
      App.markWishlistAsPurchased generatedId today item prev
  | DeleteWishlist id => deleteWishlist id prev
  end.

Definition performAll (actions : list Action) (start : AppData) : AppData :=
  fold_left (fun d a => perform a d) actions start.

(** [upcomingBills]: the first three unpaid bills. *)
Definition upcomingBills (data : AppData) : list Bill.t :=
  take 3 (List.filter (fun b => negb (Bill.isPaid b)) (bills data)).

End Handlers.

(** The records a burst leaves behind, one per mutation. *)
Fixpoint recordsAfter (ms : list ((AppData -> AppData) * nat)) (d : AppData)
  : list AppData :=
  match ms with
  | [] => []
  | m :: ms' => fst m d :: recordsAfter ms' (fst m d)
  end.

(** No income entry is at or below 0. *)
Definition incomesPositive (d : AppData) : Prop :=
  Forall (fun h => (0 <? IncomeHistory.amount h)%float = true) (incomeHistory d).

(** No bill is marked as a deposit. *)
Definition noDeposits (d : AppData) : Prop :=
  Forall (fun b => truthy (Bill.isDeposit b) = false) (bills d).

(** A session in which the save effect sets no timeout. *)
Definition notSaving (st : App.State) : Prop :=
  App.user st = None \/ App.isGuest st = true \/ App.isLoadingData st = true.

(* ===================================================================== *)
(** ** [components/LoginScreen.tsx]: the message shown for a failed
       operation *)
(* ===================================================================== *)

Module LoginScreen.

(** What the handlers read of a caught error: [error.code] and
    [error.message] (the empty string when missing, which is as falsy). *)
Record AuthError : Type := mkAuthError { code : string; message : string }.

(** The [catch] block of [handleEmailAuth]. *)
Definition emailAuthMessage (error : AuthError) : string :=
  if decide (code error = "auth/user-not-found") then
    "No account found with this email. Please sign up first."
  else if decide (code error = "auth/wrong-password") then
    "Incorrect password. Try again or reset your password."
  else if decide (code error = "auth/email-already-in-use") then
    "An account with this email already exists. Try signing in instead."
  else if decide (code error = "auth/weak-password") then
    "Password should be at least 6 characters long."
  else if decide (code error = "auth/invalid-email") then
    "Please enter a valid email address."
  else if decide (code error = "auth/too-many-requests") then
    "Too many failed attempts. Please try again later."
  else if decide (message error = "") then "Authentication failed"
  else message error.

(** The [catch] block of [handlePasswordReset]. *)
Definition passwordResetMessage (error : AuthError) : string :=
  if decide (code error = "auth/user-not-found") then
    "No account found with this email address."
  else if decide (code error = "auth/invalid-email") then
    "Please enter a valid email address."
  else if decide (message error = "") then "Failed to send reset email"
  else message error.

(** [error.message || fallback], as the other handlers put it. *)
Definition messageOr (fallback : string) (error : AuthError) : string :=
  if decide (message error = "") then fallback else message error.

(** The codes [handleEmailAuth] knows. *)
Definition knownCodes : list string :=
  [ "auth/user-not-found"; "auth/wrong-password"; "auth/email-already-in-use";
    "auth/weak-password"; "auth/invalid-email"; "auth/too-many-requests" ].

End LoginScreen.

(* ===================================================================== *)
(** * Properties *)
(* ===================================================================== *)

(** ** The store adapter: reconciliation of the guest record *)

Section Reconcile.

Variable JSON_parse : string -> option AppData.

Local Abbreviation migrate := (FirestoreService.migrateLocalDataToFirestore JSON_parse).

Ltac run_io :=
    unfold FirestoreService.migrateLocalDataToFirestore,
           FirestoreService.getUserData, FirestoreService.saveUserData,
           FirestoreService.initializeUserData, FirestoreService.parseJSON,
           try_catch, bind, ret, throw, localStorage_getItem,
           localStorage_removeItem, getDoc, setDoc, next_outcome;
    simpl.

Lemma hasAnySequence_true (d : AppData) :
    FirestoreService.hasAnySequence d = true <->
    bills d <> [] \/ expenses d <> [] \/ wishlist d <> [] \/ incomeHistory d <> [].
Proof.
    unfold FirestoreService.hasAnySequence.
    destruct (bills d), (expenses d), (wishlist d), (incomeHistory d); simpl;
      split; intros H; try reflexivity; try discriminate;
      try (destruct H as [H | [H | [H | H]]]; congruence);
      auto 6 using nil_cons.
Qed.

Lemma hasAnySequence_false (d : AppData) :
    FirestoreService.hasAnySequence d = false <->
    bills d = [] /\ expenses d = [] /\ wishlist d = [] /\ incomeHistory d = [].
Proof.
    unfold FirestoreService.hasAnySequence.
    destruct (bills d), (expenses d), (wishlist d), (incomeHistory d); simpl;
      split; intros H; try reflexivity; try discriminate; auto;
      destruct H as (? & ? & ? & ?); discriminate.
Qed.

Lemma falsy_string_Some (s : string) :
    s <> "" -> FirestoreService.falsy_string (Some s) = false.
Proof. intros Hs. simpl. destruct (decide (s = "")); [contradiction | reflexivity]. Qed.

  (** Without a local entry the migration touches nothing and says [true]. *)
Lemma migrate_absent (userId : string) (w : Env) :
    localStorage w !! DATA_KEY = None -> migrate userId w = (Ret true, w).
Proof. intros H. run_io. rewrite H. reflexivity. Qed.

  (** The migration catches everything: it always returns a boolean. *)
Lemma migrate_returns (userId : string) (w : Env) :
    exists b, fst (migrate userId w) = Ret b.
Proof.
    run_io.
    destruct (FirestoreService.falsy_string (localStorage w !! DATA_KEY)); simpl; eauto.
    destruct (JSON_parse _); simpl; eauto.
    destruct (network w) as [| [] net]; simpl;
      destruct (firestore w !! userId); simpl;
      repeat (match goal with
              | |- context [if ?b then _ else _] => destruct b; simpl
              | |- context [match ?l with [] => _ | _ :: _ => _ end] =>
                  destruct l as [| [] ?]; simpl
              end); eauto.
Qed.

  (** The only local key the migration ever touches is the data key. *)
Lemma migrate_other_keys (userId key : string) (w : Env) :
    key <> DATA_KEY ->
    localStorage (snd (migrate userId w)) !! key = localStorage w !! key.
Proof.
    intros Hk. run_io.
    destruct (FirestoreService.falsy_string (localStorage w !! DATA_KEY)); simpl; auto.
    destruct (JSON_parse _); simpl; auto.
    destruct (network w) as [| [] net]; simpl;
      destruct (firestore w !! userId); simpl;
      repeat (match goal with
              | |- context [if ?b then _ else _] => destruct b; simpl
              | |- context [match ?l with [] => _ | _ :: _ => _ end] =>
                  destruct l as [| [] ?]; simpl
              end); auto; rewrite lookup_delete_ne; auto.
Qed.

(** C1 -- the merge rule.  A guest record [L] is stored locally, the user's
    remote document is [R], and the remote calls resolve.  When one of the
    four sequences of [R] is non-empty ([weeklyEstimate] is not looked at),
    the migration returns [true], [R] stays the remote document, and the
    local store is untouched: the only call made is the read.  When all four
    are empty, [L] becomes the remote document by one full write, and after
    that write the local key is removed. *)
Theorem migrate_merge_rule (userId s : string) (L R : AppData) (w : Env) :
  localStorage w !! DATA_KEY = Some s ->
  s <> "" ->
  JSON_parse s = Some L ->
  firestore w !! userId = Some R ->
  allResolve (network w) ->
  fst (migrate userId w) = Ret true /\
  (bills R <> [] \/ expenses R <> [] \/ wishlist R <> [] \/ incomeHistory R <> [] ->
     firestore (snd (migrate userId w)) = firestore w /\
     firestore (snd (migrate userId w)) !! userId = Some R /\
     localStorage (snd (migrate userId w)) = localStorage w /\
     calls (snd (migrate userId w)) = calls w ++ [GetDoc userId true]) /\
  (bills R = [] /\ expenses R = [] /\ wishlist R = [] /\ incomeHistory R = [] ->
     firestore (snd (migrate userId w)) = <[userId := L]> (firestore w) /\
     firestore (snd (migrate userId w)) !! userId = Some L /\
     localStorage (snd (migrate userId w)) = delete DATA_KEY (localStorage w) /\
     localStorage (snd (migrate userId w)) !! DATA_KEY = None /\
     calls (snd (migrate userId w)) =
       calls w ++ [GetDoc userId true; SetDoc userId L true; RemoveItem DATA_KEY]).
Proof.
  intros Hlocal Hs Hparse Hremote Hnet.
  assert (Hcases : network w = [] \/ network w = [true] \/
                   exists net, network w = true :: true :: net).
  { destruct Hnet as [| b net Hb Hnet]; auto. subst b.
    destruct Hnet as [| b' net' Hb' Hnet]; auto. subst b'. eauto. }
  run_io. rewrite Hlocal, (falsy_string_Some s Hs). simpl. rewrite Hparse. simpl.
  assert (Hdec : FirestoreService.hasAnySequence R = true \/
                 FirestoreService.hasAnySequence R = false)
    by (destruct (FirestoreService.hasAnySequence R); auto).
  destruct Hcases as [Hw | [Hw | [net Hw]]]; rewrite Hw; simpl; rewrite Hremote; simpl;
    destruct Hdec as [Hany | Hany]; rewrite Hany; simpl;
    (split; [reflexivity |]); split; intros Hshape;
    try (apply hasAnySequence_true in Hshape; congruence);
    try (apply hasAnySequence_false in Hshape; congruence);
    rewrite <- ?app_assoc; simpl;
    repeat split;
    first [ reflexivity | exact Hremote | apply lookup_insert_eq | apply lookup_delete_eq ].
Qed.

(** C5 -- idempotence.  With no local entry the migration is a no-op that
    reports success.  So when a first call has left the local key absent
    (it removed it, or it was never there), a second call changes nothing:
    the remote documents after two calls are those after one. *)
Theorem migrate_idempotent (userId : string) (w : Env) :
  localStorage (snd (migrate userId w)) !! DATA_KEY = None ->
  (forall (u : string) (w0 : Env),
      localStorage w0 !! DATA_KEY = None -> migrate u w0 = (Ret true, w0)) /\
  migrate userId (snd (migrate userId w)) = (Ret true, snd (migrate userId w)) /\
  firestore (snd (migrate userId (snd (migrate userId w)))) =
    firestore (snd (migrate userId w)).
Proof.
  intros Hgone. split; [| split].
  - intros u w0 H0. now apply migrate_absent.
  - now apply migrate_absent.
  - rewrite (migrate_absent userId _ Hgone). reflexivity.
Qed.

(** C10 -- on the branch where the remote record has no entry, the result of
    the save is dropped: whether the write resolves ([written = true]) or
    rejects, the migration returns [true] and removes the local key.  When
    the write rejects, [saveUserData] returns [false] to nobody, the remote
    store is what it was, and the local record is gone all the same. *)
Theorem migrate_drops_save_result (userId s : string) (L R : AppData)
    (written : bool) (net : list bool) (w : Env) :
  localStorage w !! DATA_KEY = Some s ->
  s <> "" ->
  JSON_parse s = Some L ->
  firestore w !! userId = Some R ->
  FirestoreService.hasAnySequence R = false ->
  network w = true :: written :: net ->
  fst (migrate userId w) = Ret true /\
  localStorage (snd (migrate userId w)) = delete DATA_KEY (localStorage w) /\
  localStorage (snd (migrate userId w)) !! DATA_KEY = None /\
  calls (snd (migrate userId w)) =
    calls w ++ [GetDoc userId true; SetDoc userId L written; RemoveItem DATA_KEY] /\
  (written = false ->
     firestore (snd (migrate userId w)) = firestore w /\
     firestore (snd (migrate userId w)) !! userId = Some R /\
     forall w1 : Env,
       network w1 = false :: net ->
       fst (FirestoreService.saveUserData userId L w1) = Ret false).
Proof.
  intros Hlocal Hs Hparse Hremote Hempty Hnet.
  run_io. rewrite Hlocal, (falsy_string_Some s Hs). simpl. rewrite Hparse. simpl.
  rewrite Hnet. simpl. rewrite Hremote. simpl. rewrite Hempty.
  destruct written; simpl; rewrite <- ?app_assoc; simpl;
    (split; [reflexivity |]); (split; [reflexivity |]);
    (split; [apply lookup_delete_eq |]); (split; [reflexivity |]);
    intros Hw; [discriminate Hw |].
  split; [reflexivity |]. split; [exact Hremote |].
  intros w1 Hw1. rewrite Hw1. reflexivity.
Qed.

End Reconcile.

(** The merge rule on the sample session: a remote record with an expense
    is kept, a remote record with only a forecast is replaced by the guest
    record. *)
Lemma migrate_merge_rule_witness :
  firestore (snd (FirestoreService.migrateLocalDataToFirestore sampleParse "u1"
                    (sampleEnv (Some sampleRemote) (Some sampleJSON) [])))
    !! "u1" = Some sampleRemote /\
  firestore (snd (FirestoreService.migrateLocalDataToFirestore sampleParse "u1"
                    (sampleEnv (Some sampleForecastOnly) (Some sampleJSON) [])))
    !! "u1" = Some sampleLocal.
Proof.
  split.
  - destruct (migrate_merge_rule sampleParse "u1" sampleJSON sampleLocal sampleRemote
                (sampleEnv (Some sampleRemote) (Some sampleJSON) []))
      as (_ & Hkeep & _).
    + reflexivity.
    + discriminate.
    + reflexivity.
    + reflexivity.
    + constructor.
    + apply Hkeep. right. left. discriminate.
  - destruct (migrate_merge_rule sampleParse "u1" sampleJSON sampleLocal
                sampleForecastOnly
                (sampleEnv (Some sampleForecastOnly) (Some sampleJSON) []))
      as (_ & _ & Hwrite).
    + reflexivity.
    + discriminate.
    + reflexivity.
    + reflexivity.
    + constructor.
    + apply Hwrite. repeat split; reflexivity.
Defined.

(** A first call that migrated the sample record, then a second one. *)
Lemma migrate_idempotent_witness :
  FirestoreService.migrateLocalDataToFirestore sampleParse "u1"
    (snd (FirestoreService.migrateLocalDataToFirestore sampleParse "u1"
            (sampleEnv (Some sampleForecastOnly) (Some sampleJSON) [])))
  = (Ret true,
     snd (FirestoreService.migrateLocalDataToFirestore sampleParse "u1"
            (sampleEnv (Some sampleForecastOnly) (Some sampleJSON) []))).
Proof.
  apply (migrate_idempotent sampleParse "u1"
           (sampleEnv (Some sampleForecastOnly) (Some sampleJSON) [])).
  vm_compute. reflexivity.
Defined.

(** The read resolves, the write rejects: the sample record is lost. *)
Lemma migrate_drops_save_result_witness :
  fst (FirestoreService.migrateLocalDataToFirestore sampleParse "u1"
         (sampleEnv (Some sampleForecastOnly) (Some sampleJSON) [true; false]))
    = Ret true /\
  localStorage
    (snd (FirestoreService.migrateLocalDataToFirestore sampleParse "u1"
            (sampleEnv (Some sampleForecastOnly) (Some sampleJSON) [true; false])))
    !! DATA_KEY = None /\
  firestore
    (snd (FirestoreService.migrateLocalDataToFirestore sampleParse "u1"
            (sampleEnv (Some sampleForecastOnly) (Some sampleJSON) [true; false])))
    !! "u1" = Some sampleForecastOnly.
Proof.
  destruct (migrate_drops_save_result sampleParse "u1" sampleJSON sampleLocal
              sampleForecastOnly false []
              (sampleEnv (Some sampleForecastOnly) (Some sampleJSON) [true; false]))
    as (Hret & _ & Hgone & _ & Hlost).
  - reflexivity.
  - discriminate.
  - reflexivity.
  - reflexivity.
  - reflexivity.
  - reflexivity.
  - split; [exact Hret |]. split; [exact Hgone |].
    destruct (Hlost eq_refl) as (_ & Hsame & _). exact Hsame.
Defined.

(** ** The aggregation engine *)

Section Aggregates.

Import App.

(** [filter] then [reduce], as the source sums the held deposits, is the
    walk through the bills that adds up those both paid and a deposit. *)
Lemma heldDeposits_fold (bs : list Bill.t) (acc : number) :
  fold_left (fun a curr => (a + Bill.amount curr)%float)
            (List.filter (fun b => Bill.isPaid b && truthy (Bill.isDeposit b)) bs)
            acc
  = sumPaidDeposits acc bs.
Proof.
  revert acc. induction bs as [| b bs IH]; intros acc; simpl.
  - reflexivity.
  - destruct (Bill.isPaid b); simpl.
    + destruct (Bill.isDeposit b) as [[] |]; simpl; apply IH.
    + apply IH.
Qed.

Lemma identities_hold (d : AppData) : identities d.
Proof.
  unfold identities, totalNetWorth, confirmedBalance.
  split; [reflexivity |]. split; [reflexivity |].
  unfold totalHeldDeposits. apply heldDeposits_fold.
Qed.

(** C2 -- for every record the confirmed balance is income minus expenses
    minus paid bills, the net worth is the confirmed balance plus the held
    deposits, and the held deposits are the amounts of the bills that are
    both paid and deposits; the same holds of every record whose income
    history, expenses and bills are those of the first in another order. *)
Theorem aggregate_identities (R R' : AppData) :
  Permutation (incomeHistory R) (incomeHistory R') ->
  Permutation (expenses R) (expenses R') ->
  Permutation (bills R) (bills R') ->
  identities R /\ identities R'.
Proof.
  intros _ _ _. split; apply identities_hold.
Qed.

End Aggregates.

Lemma aggregate_identities_witness :
  identities sampleBills /\ identities sampleBillsReordered.
Proof.
  apply (aggregate_identities sampleBills sampleBillsReordered).
  - reflexivity.
  - reflexivity.
  - simpl. apply Permutation_sym, (Permutation_cons_app [_; _] []). reflexivity.
Defined.

(** On the sample: 1000 - 12 - 460 = 528 in hand, 400 held, 928 net. *)
Example sampleBills_totals :
  App.confirmedBalance sampleBills = 528%float /\
  App.totalHeldDeposits sampleBills = 400%float /\
  App.totalNetWorth sampleBills = 928%float /\
  App.totalNetWorth sampleBillsReordered = 928%float.
Proof. repeat split; vm_compute; reflexivity. Qed.

(** The identities relate totals of one record.  The totals themselves are
    binary64 sums taken from left to right: amounts 0.1, 0.2, 0.3 (their
    nearest binary64 values) add up differently in the opposite order. *)
Remark totalExpenses_follows_the_order :
  let e := fun a => Expense.mk "e" "x" a Other "2024-01-01" in
  let r := fun es => mkAppData 0%float [] [] [] es in
  App.totalExpenses (r [ e 0x1.999999999999ap-4%float;
                         e 0x1.999999999999ap-3%float;
                         e 0x1.3333333333333p-2%float ])
  <> App.totalExpenses (r [ e 0x1.3333333333333p-2%float;
                            e 0x1.999999999999ap-3%float;
                            e 0x1.999999999999ap-4%float ]).
Proof. vm_compute. intros H. discriminate H. Qed.

(** ** Mutations of the record *)

Section Mutations.

Import App.

Lemma append_empty_r (n : string) : String.append n "" = n.
Proof.
  induction n as [| c n IHn]; [reflexivity |].
  change (String.append (String c n) "") with (String c (String.append n "")).
  now rewrite IHn.
Qed.

Lemma filter_drops_one {A} (keep : A -> bool) (x : A) (l : list A) :
  In x l -> keep x = false -> length (List.filter keep l) < length l.
Proof.
  intros Hin Hx. induction l as [| a l IH]; simpl in *; [contradiction |].
  destruct Hin as [-> | Hin].
  - rewrite Hx. pose proof (List.filter_length_le keep l). lia.
  - specialize (IH Hin). destruct (keep a); simpl; lia.
Qed.

Lemma filter_keeps_all {A} (keep : A -> bool) (l : list A) :
  (forall a, In a l -> keep a = true) -> List.filter keep l = l.
Proof.
  induction l as [| a l IH]; simpl; intros H; [reflexivity |].
  rewrite (H a) by auto. f_equal. apply IH. auto.
Qed.

(** With unique ids, filtering out one id takes out exactly one item. *)
Lemma filter_drops_exactly_one (x : WishlistItem.t) (l : list WishlistItem.t) :
  NoDup (map WishlistItem.id l) ->
  In x l ->
  length (List.filter
            (fun i => if decide (WishlistItem.id i = WishlistItem.id x)
                      then false else true) l) + 1
  = length l.
Proof.
  induction l as [| a l IH]; simpl; intros Hnd Hin; [contradiction |].
  apply NoDup_cons in Hnd as [Hfresh Hnd].
  destruct (decide (WishlistItem.id a = WishlistItem.id x)) as [Heq | Hne].
  - rewrite filter_keeps_all; [lia |].
    intros b Hb. destruct (decide (WishlistItem.id b = WishlistItem.id x)) as [Hbx |];
      [| reflexivity].
    exfalso. apply Hfresh. rewrite Heq, <- Hbx.
    apply list_elem_of_In, in_map, Hb.
  - destruct Hin as [-> | Hin]; [congruence |].
    simpl. rewrite <- (IH Hnd Hin). lia.
Qed.

(** C4 -- marking a wishlist item [W] of the record as purchased: the new
    wishlist is the old one without the items that carry [W]'s id (so [W]
    is gone, the wishlist is shorter, by exactly one when ids are unique);
    the expenses are the old ones followed by exactly one more, whose
    amount is [W]'s price, whose category is Shopping and whose
    description contains [W]'s name; bills, income history and forecast
    are the old ones. *)
Theorem markWishlistAsPurchased_moves_item (generatedId today : string)
    (W : WishlistItem.t) (prev : AppData) :
  In W (wishlist prev) ->
  let next := markWishlistAsPurchased generatedId today W prev in
  (forall i, In i (wishlist next) <->
             In i (wishlist prev) /\ WishlistItem.id i <> WishlistItem.id W) /\
  ~ In W (wishlist next) /\
  length (wishlist next) < length (wishlist prev) /\
  (NoDup (map WishlistItem.id (wishlist prev)) ->
   length (wishlist next) + 1 = length (wishlist prev)) /\
  (exists e : Expense.t,
      expenses next = expenses prev ++ [e] /\
      Expense.amount e = WishlistItem.price W /\
      Expense.category e = Shopping /\
      contains (Expense.description e) (WishlistItem.name W)) /\
  length (expenses next) = length (expenses prev) + 1 /\
  bills next = bills prev /\
  incomeHistory next = incomeHistory prev /\
  weeklyEstimate next = weeklyEstimate prev.
Proof.
  intros HW next. subst next. unfold markWishlistAsPurchased. simpl.
  assert (Hmem : forall i,
             In i (List.filter
                     (fun i => if decide (WishlistItem.id i = WishlistItem.id W)
                               then false else true) (wishlist prev)) <->
             In i (wishlist prev) /\ WishlistItem.id i <> WishlistItem.id W).
  { intros i. rewrite List.filter_In.
    destruct (decide (WishlistItem.id i = WishlistItem.id W)); intuition congruence. }
  split; [exact Hmem |].
  split; [intros Hin; apply Hmem in Hin; destruct Hin as [_ Hne]; now apply Hne |].
  split.
  { apply (filter_drops_one _ W); [exact HW |].
    destruct (decide (WishlistItem.id W = WishlistItem.id W)); congruence. }
  split; [intros Hnd; now apply filter_drops_exactly_one |].
  split.
  { eexists. split; [reflexivity |]. simpl. repeat split.
    exists "Wishlist: ", "". now rewrite append_empty_r. }
  split; [rewrite length_app; reflexivity |].
  repeat split.
Qed.

End Mutations.

Lemma markWishlistAsPurchased_moves_item_witness :
  wishlist (App.markWishlistAsPurchased "g1" "2024-05-02" sampleBike sampleWishlist)
    = [ WishlistItem.mk "w2" "Lamp" 35%float Low None ] /\
  expenses (App.markWishlistAsPurchased "g1" "2024-05-02" sampleBike sampleWishlist)
    = [ Expense.mk "e1" "Lunch" 12%float Food "2024-04-05";
        Expense.mk "purchased-g1" "Wishlist: Bike" 120%float Shopping "2024-05-02" ] /\
  ~ In sampleBike
      (wishlist (App.markWishlistAsPurchased "g1" "2024-05-02" sampleBike sampleWishlist)).
Proof.
  split; [reflexivity |]. split; [reflexivity |].
  apply (markWishlistAsPurchased_moves_item "g1" "2024-05-02" sampleBike sampleWishlist).
  simpl. left. reflexivity.
Defined.

(** ** Amounts that enter the record *)

(** The record of an identity seen for the first time. *)
Lemma defaultData_is_empty :
  incomeHistory defaultData = [] /\ bills defaultData = [] /\
  wishlist defaultData = [] /\ expenses defaultData = [] /\
  weeklyEstimate defaultData = 0%float.
Proof. repeat split. Qed.

(** "Marked Paid" appends an income entry only when its amount is above 0. *)
Lemma addIncome_amount_positive (parsed : number) (generatedId today : string)
    (prev next : AppData) :
  App.addIncome parsed generatedId today prev = Some next ->
  exists h : IncomeHistory.t,
    incomeHistory next = incomeHistory prev ++ [h] /\
    (0 <? IncomeHistory.amount h)%float = true.
Proof.
  unfold App.addIncome. intros H.
  destruct (0 <? App.orZero parsed)%float eqn:Hpos; [| discriminate].
  injection H as <-. simpl. eexists. split; [reflexivity | exact Hpos].
Qed.

(** "Add Commitment" and "Record Spend" only ask for a name and for a number
    that is not [NaN]. *)
Lemma addBill_accepts (nameVal dateVal generatedId : string) (amtVal : number)
    (prev : AppData) :
  nameVal <> "" -> is_nan amtVal = false ->
  exists next : AppData,
    App.addBill nameVal amtVal dateVal generatedId prev = Some next /\
    bills next = bills prev ++ [ Bill.mk generatedId nameVal amtVal dateVal false None ].
Proof.
  intros Hname Hnan. unfold App.addBill, App.nonEmpty.
  destruct (decide (nameVal = "")); [contradiction |]. rewrite Hnan. simpl.
  eexists. split; reflexivity.
Qed.

(** C6 -- the handlers that add a bill and an expense store a negative
    amount: with [-5] in the amount field the new bill, and the new
    expense, has amount [-5], which is below 0. *)
Theorem addBill_stores_negative_amount :
  (exists next : AppData,
      sampleNegativeBill = Some next /\
      bills next = [ Bill.mk "b9" "Refund" (-5)%float "2024-05-01" false None ] /\
      Forall (fun b => (0 <=? Bill.amount b)%float = false) (bills next)) /\
  (exists next : AppData,
      sampleNegativeExpense = Some next /\
      expenses next = [ Expense.mk "e9" "Refund" (-5)%float Other "2024-05-01" ] /\
      Forall (fun e => (0 <=? Expense.amount e)%float = false) (expenses next)).
Proof.
  split; eexists; (split; [reflexivity |]); split; try reflexivity;
    repeat constructor.
Qed.

(** ** The save effect *)

Section SaveEffect.

Import App.

(** For a guest the save effect sets no timeout, whatever was pending is
    cleared, and the passing of time runs nothing: no store is touched. *)
Lemma guest_setData_leaves_stores (f : AppData -> AppData) (dt : nat) (st : State) :
  user st = None ->
  user (advance dt (setData f st)) = None /\
  isGuest (advance dt (setData f st)) = isGuest st /\
  env (advance dt (setData f st)) = env st /\
  timeoutId (advance dt (setData f st)) = None /\
  data (advance dt (setData f st)) = f (data st).
Proof.
  intros Hu. unfold advance, setData, saveEffect. simpl. rewrite Hu. simpl.
  repeat split; assumption.
Qed.

(** C3 -- what the save effect does for a guest: nothing.  The effect is
    gated on a signed-in user who is not a guest, so in a guest session any
    number of mutations, with any time between them, changes the record in
    memory and leaves both stores and the history of store calls as they
    were; in particular the local entry is never written. *)
Theorem guest_session_saves_nothing (ms : list ((AppData -> AppData) * nat))
    (st : State) :
  user st = None ->
  isGuest st = true ->
  data (burst ms st) = applyAll ms (data st) /\
  env (burst ms st) = env st /\
  localStorage (env (burst ms st)) !! DATA_KEY = localStorage (env st) !! DATA_KEY /\
  calls (env (burst ms st)) = calls (env st).
Proof.
  intros Hu Hg.
  assert (H : data (burst ms st) = applyAll ms (data st) /\
              env (burst ms st) = env st).
  { clear Hg. revert st Hu. induction ms as [| [f dt] ms IH]; intros st Hu; simpl.
    - split; reflexivity.
    - destruct (guest_setData_leaves_stores f dt st Hu) as (Hu' & _ & He & _ & Hd).
      destruct (IH _ Hu') as [Hd' He'].
      unfold burst in *. simpl. rewrite Hd', He', Hd, He. split; reflexivity. }
  destruct H as [Hd He]. rewrite He. repeat split. exact Hd.
Qed.

(** C3, the claim as it was stated, on the sample guest session: the guest
    adds a bill; the record in memory has it, but no call is made to any
    store and the local entry stays absent, so that opening the application
    again on the same local store gives the empty record. *)
Lemma guest_mutation_is_not_saved :
  user sampleGuestSession = None /\
  isGuest sampleGuestSession = true /\
  data sampleGuestSession = sampleLocal /\
  calls (env sampleGuestSession) = [] /\
  ~ guestRecordPersisted sampleParse sampleGuestSession /\
  data (mountGuest sampleParse (env sampleGuestSession)) = defaultData.
Proof.
  split; [reflexivity |]. split; [reflexivity |]. split; [reflexivity |].
  split; [reflexivity |]. split; [| reflexivity].
  intros (s & Hs & _). vm_compute in Hs. discriminate Hs.
Qed.

End SaveEffect.

Lemma guest_session_saves_nothing_witness :
  localStorage
    (App.env (App.burst sampleBurst
                (App.mountGuest sampleParse (sampleEnv None None []))))
    !! DATA_KEY = None.
Proof.
  destruct (guest_session_saves_nothing sampleBurst
              (App.mountGuest sampleParse (sampleEnv None None [])))
    as (_ & _ & Hkey & _).
  - reflexivity.
  - reflexivity.
  - rewrite Hkey. reflexivity.
Defined.

Section Debounce.

Import App.

Local Abbreviation mutation := (AppData -> AppData).

(** A mutation followed by less than 500 ms: the timeout just set is still
    pending, nothing was written. *)
Lemma mutation_then_short_wait (u : User) (f : mutation) (dt : nat) (st : State) :
  saving u st -> dt < 500 ->
  saving u (advance dt (setData f st)) /\
  env (advance dt (setData f st)) = env st /\
  data (advance dt (setData f st)) = f (data st).
Proof.
  intros (Hu & Hg & Hl) Hdt. unfold saving, advance, setData, saveEffect. simpl.
  rewrite Hu, Hg, Hl. simpl.
  destruct (now st + 500 <=? now st + dt)%nat eqn:Hdue.
  - apply Nat.leb_le in Hdue. lia.
  - simpl. repeat split; reflexivity.
Qed.

(** A burst whose gaps are all shorter than the delay writes nothing. *)
Lemma burst_writes_nothing (u : User) (ms : list (mutation * nat)) (st : State) :
  saving u st -> Forall (fun m => snd m < 500) ms ->
  saving u (burst ms st) /\
  env (burst ms st) = env st /\
  data (burst ms st) = applyAll ms (data st).
Proof.
  revert st. induction ms as [| [f dt] ms IH]; intros st Hst Hgaps; simpl.
  - repeat split; apply Hst.
  - apply Forall_cons in Hgaps as [Hdt Hgaps]. simpl in Hdt.
    destruct (mutation_then_short_wait u f dt st Hst Hdt) as (Hst' & Henv & Hdata).
    destruct (IH _ Hst' Hgaps) as (Hst'' & Henv' & Hdata').
    unfold burst in *. simpl.
    split; [exact Hst'' |]. split; [now rewrite Henv' | now rewrite Hdata', Hdata].
Qed.

Lemma elapsed_bounds_gaps (ms : list (mutation * nat)) (n : nat) :
  elapsed ms < n -> Forall (fun m => snd m < n) ms.
Proof.
  induction ms as [| [f dt] ms IH]; simpl; intros H; constructor; simpl.
  - unfold elapsed in H. simpl in H. lia.
  - apply IH. unfold elapsed in *. simpl in H. lia.
Qed.

(** The timeout set by a mutation, once 500 ms have passed with no other
    change, makes one call of [setDoc]. *)
Lemma mutation_then_long_wait (u : User) (f : mutation) (wait : nat) (st : State) :
  saving u st -> 500 <= wait ->
  data (advance wait (setData f st)) = f (data st) /\
  timeoutId (advance wait (setData f st)) = None /\
  calls (env (advance wait (setData f st))) =
    calls (env st) ++
    [SetDoc (uid u) (f (data st)) (fst (next_outcome (network (env st))))].
Proof.
  intros (Hu & Hg & Hl) Hwait. unfold advance, setData, saveEffect. simpl.
  rewrite Hu, Hg, Hl. simpl.
  destruct (now st + 500 <=? now st + wait)%nat eqn:Hdue.
  - simpl. split; [reflexivity |]. split; [reflexivity |].
    unfold FirestoreService.saveUserData, try_catch, bind, ret, setDoc.
    destruct (network (env st)) as [| [] net]; reflexivity.
  - apply Nat.leb_gt in Hdue. lia.
Qed.

(** C7 -- debounced saves.  In a saving session, [length ms + 1] mutations
    (the burst [ms], then [last]) that all happen within less than 500 ms,
    followed by a quiet period of at least 500 ms, add exactly one call of
    [setDoc] to the history of store calls; it carries the record as the
    last mutation left it. *)
Theorem debounce_coalesces (u : User) (ms : list (mutation * nat))
    (last : mutation) (wait : nat) (st : State) :
  saving u st ->
  elapsed ms < 500 ->
  500 <= wait ->
  let st' := advance wait (setData last (burst ms st)) in
  data st' = last (applyAll ms (data st)) /\
  timeoutId st' = None /\
  calls (env st') =
    calls (env st) ++
    [SetDoc (uid u) (last (applyAll ms (data st)))
            (fst (next_outcome (network (env st))))].
Proof.
  intros Hst Hwindow Hwait st'. subst st'.
  destruct (burst_writes_nothing u ms st Hst (elapsed_bounds_gaps ms 500 Hwindow))
    as (Hst' & Henv & Hdata).
  destruct (mutation_then_long_wait u last wait (burst ms st) Hst' Hwait)
    as (Hd & Ht & Hc).
  rewrite Hd, Ht, Hc, Henv, Hdata. repeat split.
Qed.

End Debounce.

(** Four forecasts saved within 300 ms, then a second of quiet: one write,
    of the fourth. *)
Lemma debounce_coalesces_witness :
  calls (App.env (App.advance 1000
                    (App.setData (App.saveForecast 40%float)
                       (App.burst sampleBurst sampleSignedIn))))
  = [ SetDoc "u1" (mkAppData 40%float [] [] [] []) true ].
Proof.
  destruct (debounce_coalesces sampleUser sampleBurst (App.saveForecast 40%float)
              1000 sampleSignedIn) as (_ & _ & Hcalls).
  - repeat split.
  - vm_compute. lia.
  - lia.
  - exact Hcalls.
Defined.

(** ** The session state holder *)

Section Session.

Variable JSON_parse : string -> option AppData.

Import AuthContext.

Lemma keys_differ : GUEST_KEY <> DATA_KEY.
Proof. discriminate. Qed.

(** What the observer's callback changes: the user (and the data stores). *)
Lemma authStateCallback_obs (u : option User) (st : State) :
  user (authStateCallback JSON_parse u st) = u /\
  isGuest (authStateCallback JSON_parse u st) = isGuest st /\
  listening (authStateCallback JSON_parse u st) = listening st /\
  currentUser (authStateCallback JSON_parse u st) = currentUser st /\
  guestKey (authStateCallback JSON_parse u st) = guestKey st.
Proof.
  unfold authStateCallback, guestKey, exec.
  destruct u as [usr |]; simpl; [| repeat split].
  destruct (isGuest st) eqn:Hguest; simpl; repeat split; try exact Hguest.
  apply migrate_other_keys, keys_differ.
Qed.

Lemma notify_obs (st : State) :
  user (notify JSON_parse st) = (if listening st then currentUser st else user st) /\
  isGuest (notify JSON_parse st) = isGuest st /\
  listening (notify JSON_parse st) = listening st /\
  currentUser (notify JSON_parse st) = currentUser st /\
  guestKey (notify JSON_parse st) = guestKey st.
Proof.
  unfold notify. destruct (listening st) eqn:Hl.
  - destruct (authStateCallback_obs (currentUser st) st) as (-> & -> & -> & -> & ->).
    rewrite Hl. repeat split.
  - rewrite Hl. repeat split.
Qed.

Lemma effect_guest (st : State) :
  guestKey st = Some "true" ->
  effect JSON_parse st = setLoading false (setIsGuest true (setListening false st)).
Proof.
  intros Hk. unfold effect. simpl.
  destruct (decide _) as [| Hn]; [reflexivity | contradiction].
Qed.

Lemma effect_subscribes (st : State) :
  guestKey st <> Some "true" ->
  effect JSON_parse st = notify JSON_parse (setListening true (setListening false st)).
Proof.
  intros Hk. unfold effect. simpl.
  destruct (decide _) as [Hy |]; [contradiction | reflexivity].
Qed.

Lemma effect_obs_subscribes (st : State) :
  guestKey st <> Some "true" ->
  user (effect JSON_parse st) = currentUser st /\
  isGuest (effect JSON_parse st) = isGuest st /\
  listening (effect JSON_parse st) = true /\
  currentUser (effect JSON_parse st) = currentUser st /\
  guestKey (effect JSON_parse st) = guestKey st.
Proof.
  intros Hk. rewrite (effect_subscribes st Hk).
  destruct (notify_obs (setListening true (setListening false st)))
    as (-> & -> & -> & -> & ->).
  repeat split.
Qed.

Lemma coherent_notify (st : State) : coherent st -> coherent (notify JSON_parse st).
Proof.
  intros [Hg Hk]. unfold coherent.
  destruct (notify_obs st) as (Hu & -> & -> & _ & ->).
  split; [| exact Hk].
  intros Hguest. destruct (Hg Hguest) as (Hnone & Hoff & Hkey).
  rewrite Hu, Hoff. auto.
Qed.

Lemma coherent_ready (st : State) : coherent st -> ready st.
Proof.
  intros [Hg Hk]. split.
  - intros Hkey. apply Hg, Hk, Hkey.
  - intros Hkey. destruct (isGuest st) eqn:Hguest; [| reflexivity].
    destruct (Hg eq_refl) as (_ & _ & Hy). contradiction.
Qed.

Lemma coherent_effect (st : State) : ready st -> coherent (effect JSON_parse st).
Proof.
  intros [Hp Hq]. destruct (decide (guestKey st = Some "true")) as [Hk | Hk].
  - rewrite (effect_guest st Hk). unfold coherent, guestKey. simpl. auto.
  - destruct (effect_obs_subscribes st Hk) as (_ & Hg & _ & _ & Hkey).
    unfold coherent. rewrite Hg, Hkey, (Hq Hk).
    split; [discriminate | intros; contradiction].
Qed.

Lemma coherent_commit (before : bool) (st : State) :
  ready st -> (before = isGuest st -> coherent st) ->
  coherent (commit JSON_parse before st).
Proof.
  intros Hready Hsame. unfold commit.
  destruct (Bool.eqb before (isGuest st)) eqn:Hb.
  - apply Hsame, Bool.eqb_prop, Hb.
  - pose proof (coherent_effect st Hready) as H1.
    destruct (Bool.eqb (isGuest st) (isGuest (effect JSON_parse st))); [exact H1 |].
    apply coherent_effect, coherent_ready, H1.
Qed.

Lemma coherent_mount (cached : option User) (w : Env) :
  coherent (mount JSON_parse cached w).
Proof.
  unfold mount.
  assert (Hready : ready (mkState None true false false cached w))
    by (split; intros; reflexivity).
  pose proof (coherent_effect _ Hready) as H1.
  destruct (Bool.eqb _ _); [exact H1 |].
  apply coherent_effect, coherent_ready, H1.
Qed.

(** After the shared tail of the sign-in operations the guest flag is
    false and the durable flag is absent, whatever the state before. *)
Lemma signedIn_obs (st : State) :
  isGuest (signedIn JSON_parse st) = false /\ guestKey (signedIn JSON_parse st) = None.
Proof.
  unfold signedIn.
  set (st' := setLoading false (exec (localStorage_removeItem GUEST_KEY)
                                     (setIsGuest false st))).
  assert (Hg : isGuest st' = false) by reflexivity.
  assert (Hk : guestKey st' = None) by apply lookup_delete_eq.
  assert (Hne : guestKey st' <> Some "true") by (rewrite Hk; discriminate).
  destruct (effect_obs_subscribes st' Hne) as (_ & Hg1 & _ & _ & Hk1).
  unfold commit.
  destruct (Bool.eqb (isGuest st) (isGuest st')); [auto |].
  rewrite Hg1, Hg. simpl. rewrite Hg1, Hk1. auto.
Qed.

Lemma coherent_signedIn (st : State) : coherent (signedIn JSON_parse st).
Proof.
  destruct (signedIn_obs st) as [Hg Hk]. unfold coherent. rewrite Hg, Hk.
  split; discriminate.
Qed.

Lemma coherent_setLoading (b : bool) (st : State) :
  coherent st -> coherent (setLoading b st).
Proof. intros H. exact H. Qed.

Lemma coherent_providerSession (u : option User) (st : State) :
  coherent st -> coherent (providerSession JSON_parse u st).
Proof. intros H. unfold providerSession. apply coherent_notify. exact H. Qed.

Lemma coherent_signInAsGuest (st : State) :
  coherent st -> coherent (signInAsGuest JSON_parse st).
Proof.
  intros [Hg Hk]. unfold signInAsGuest. apply coherent_commit.
  - split; [reflexivity |]. intros Hn. exfalso. apply Hn. apply lookup_insert_eq.
  - intros Hb. simpl in Hb. destruct (Hg Hb) as (_ & Hoff & _).
    unfold coherent, guestKey. simpl. rewrite Hoff.
    split; [| reflexivity]. intros _. repeat split. apply lookup_insert_eq.
Qed.

Lemma coherent_logout (signedOut : bool) (st : State) :
  coherent st -> coherent (snd (logout JSON_parse signedOut st)).
Proof.
  intros H. unfold logout.
  assert (Hdone : forall st0 : State,
             coherent (commit JSON_parse (isGuest st)
                         (exec (localStorage_removeItem GUEST_KEY)
                               (setIsGuest false (setUser None st0))))).
  { intros st0. apply coherent_commit.
    - split; [reflexivity |]. intros _. reflexivity.
    - intros _. unfold coherent, guestKey. simpl. rewrite lookup_delete_eq.
      split; discriminate. }
  destruct (isGuest st) eqn:Hguest; simpl.
  - apply Hdone.
  - destruct signedOut; simpl; [apply Hdone | exact H].
Qed.

Lemma coherent_migrateUserData (st : State) :
  coherent st -> coherent (snd (migrateUserData JSON_parse st)).
Proof.
  intros H. unfold migrateUserData.
  destruct (user st) as [u |] eqn:Hu; [| exact H].
  destruct (isGuest st) eqn:Hg; simpl; [exact H |].
  destruct (FirestoreService.migrateLocalDataToFirestore JSON_parse (uid u) (env st))
    as [r w'] eqn:Hm. simpl.
  assert (Hkey : localStorage w' !! GUEST_KEY = guestKey st).
  { change w' with (snd (r, w')). rewrite <- Hm.
    apply migrate_other_keys, keys_differ. }
  destruct H as [H1 H2]. unfold coherent, guestKey in *. simpl.
  rewrite Hkey, Hg in *. split; [discriminate | exact H2].
Qed.

(** Every operation keeps the state coherent. *)
Lemma coherent_step (ev : Event) (st : State) :
  coherent st -> coherent (step JSON_parse st ev).
Proof.
  intros H. unfold step, handle.
  destruct ev as [r | r | r v | c | | s | s | s | | u |]; simpl.
  - unfold signInWithGoogle. destruct r; simpl;
      [apply coherent_signedIn | exact H].
  - unfold signInWithEmail. destruct r; simpl;
      [apply coherent_signedIn | exact H].
  - unfold signUpWithEmail. destruct r; simpl; [| exact H].
    destruct v; simpl; [apply coherent_signedIn |].
    apply coherent_setLoading, coherent_providerSession, H.
  - unfold signInWithPhone. destruct c; simpl;
      [apply coherent_signedIn | exact H].
  - apply coherent_signInAsGuest, H.
  - apply coherent_logout, H.
  - unfold resetPassword. destruct s; exact H.
  - unfold sendVerificationEmail. destruct (user st) as [u |]; [| exact H].
    destruct (negb (emailVerified u)); [destruct s |]; exact H.
  - apply coherent_migrateUserData, H.
  - apply coherent_providerSession, H.
  - apply coherent_mount.
Qed.

Lemma coherent_run (evs : list Event) (st : State) :
  coherent st -> coherent (run JSON_parse st evs).
Proof.
  revert st. induction evs as [| ev evs IH]; intros st H; simpl; [exact H |].
  apply IH, coherent_step, H.
Qed.

Lemma signedOutOfGuest_notify (st : State) :
  signedOutOfGuest st -> signedOutOfGuest (notify JSON_parse st).
Proof.
  intros H. unfold signedOutOfGuest.
  destruct (notify_obs st) as (_ & -> & _ & _ & ->). exact H.
Qed.

Lemma signedOutOfGuest_effect (st : State) :
  signedOutOfGuest st -> signedOutOfGuest (effect JSON_parse st).
Proof.
  intros [Hg Hk]. unfold signedOutOfGuest.
  destruct (effect_obs_subscribes st Hk) as (_ & -> & _ & _ & ->). auto.
Qed.

Lemma signedOutOfGuest_commit (before : bool) (st : State) :
  signedOutOfGuest st -> signedOutOfGuest (commit JSON_parse before st).
Proof.
  intros H. unfold commit.
  destruct (Bool.eqb before (isGuest st)); [exact H |].
  destruct (Bool.eqb _ _); repeat apply signedOutOfGuest_effect; exact H.
Qed.

Lemma signedOutOfGuest_signedIn (st : State) :
  signedOutOfGuest (signedIn JSON_parse st).
Proof.
  destruct (signedIn_obs st) as [Hg Hk]. split; [exact Hg |].
  rewrite Hk. discriminate.
Qed.

Lemma signedOutOfGuest_mount (st : State) :
  signedOutOfGuest st ->
  signedOutOfGuest (mount JSON_parse (currentUser st) (env st)).
Proof.
  intros [_ Hk]. unfold mount.
  assert (H0 : signedOutOfGuest (mkState None true false false (currentUser st) (env st)))
    by (split; [reflexivity | exact Hk]).
  destruct (Bool.eqb _ _); repeat apply signedOutOfGuest_effect; exact H0.
Qed.

(** Once out of the guest state, a session stays out of it under every
    operation but the guest entry. *)
Lemma signedOutOfGuest_step (ev : Event) (st : State) :
  isGuestEntry ev = false ->
  signedOutOfGuest st -> signedOutOfGuest (step JSON_parse st ev).
Proof.
  intros Hev H. unfold step, handle.
  destruct ev as [r | r | r v | c | | s | s | s | | u |]; simpl;
    try discriminate Hev.
  - unfold signInWithGoogle. destruct r; simpl;
      [apply signedOutOfGuest_signedIn | exact H].
  - unfold signInWithEmail. destruct r; simpl;
      [apply signedOutOfGuest_signedIn | exact H].
  - unfold signUpWithEmail. destruct r; simpl; [| exact H].
    destruct v; simpl; [apply signedOutOfGuest_signedIn |].
    apply (signedOutOfGuest_notify (setCurrentUser (Some u) (setLoading true st))), H.
  - unfold signInWithPhone. destruct c; simpl;
      [apply signedOutOfGuest_signedIn | exact H].
  - unfold logout. destruct H as [Hg Hk]. rewrite Hg. simpl.
    destruct s; simpl; [| split; assumption].
    apply signedOutOfGuest_commit. split; [reflexivity |].
    unfold guestKey. simpl. rewrite lookup_delete_eq. discriminate.
  - unfold resetPassword. destruct s; exact H.
  - unfold sendVerificationEmail. destruct (user st) as [u |]; [| exact H].
    destruct (negb (emailVerified u)); [destruct s |]; exact H.
  - unfold migrateUserData.
    destruct (user st) as [u |] eqn:Hu; [| exact H].
    destruct (isGuest st) eqn:Hg; simpl; [exact H |].
    destruct (FirestoreService.migrateLocalDataToFirestore JSON_parse (uid u) (env st))
      as [r w'] eqn:Hm. simpl.
    assert (Hkey : localStorage w' !! GUEST_KEY = guestKey st).
    { change w' with (snd (r, w')). rewrite <- Hm.
      apply migrate_other_keys, keys_differ. }
    destruct H as [_ Hk]. split; [exact Hg |].
    unfold guestKey. simpl. rewrite Hkey. exact Hk.
  - apply (signedOutOfGuest_notify (setCurrentUser u st)), H.
  - apply signedOutOfGuest_mount, H.
Qed.

Lemma signedOutOfGuest_run (evs : list Event) (st : State) :
  Forall (fun ev => isGuestEntry ev = false) evs ->
  signedOutOfGuest st -> signedOutOfGuest (run JSON_parse st evs).
Proof.
  revert st. induction evs as [| ev evs IH]; intros st Hevs H; simpl; [exact H |].
  apply Forall_cons in Hevs as [Hev Hevs].
  apply IH; [exact Hevs |]. apply signedOutOfGuest_step; assumption.
Qed.

(** A successful sign-in ends with the shared tail [signedIn]. *)
Lemma successfulSignIn_obs (ev : Event) (st : State) :
  successfulSignIn ev = true ->
  isGuest (step JSON_parse st ev) = false /\ guestKey (step JSON_parse st ev) = None.
Proof.
  intros Hev. unfold step, handle.
  destruct ev as [[u | e] | [u | e] | [u | e] [] | [] | | s | s | s | | u |];
    simpl in Hev; try discriminate Hev; simpl; apply signedIn_obs.
Qed.

(** C8 -- guest and authenticated exclude each other.  Take any history of
    a mounted provider.  After a sign-in operation that succeeds (federated,
    email sign-in, email sign-up, phone) the guest flag is false and the
    durable guest key is absent; the flag is still false after any further
    operations among which there is no guest entry (while a guest entry
    does set it); and in no state of any history is there a user while the
    guest flag is set. *)
Theorem guest_excludes_user (cached : option User) (w : Env)
    (before : list Event) (ev : Event) (after : list Event) :
  successfulSignIn ev = true ->
  Forall (fun e => isGuestEntry e = false) after ->
  let st1 := step JSON_parse (run JSON_parse (mount JSON_parse cached w) before) ev in
  isGuest st1 = false /\
  guestKey st1 = None /\
  isGuest (run JSON_parse st1 after) = false /\
  isGuest (step JSON_parse (run JSON_parse st1 after) SignInAsGuest) = true /\
  (forall evs : list Event,
      ~ guestAndUser (run JSON_parse (mount JSON_parse cached w) evs)).
Proof.
  intros Hev Hafter st1.
  destruct (successfulSignIn_obs ev
              (run JSON_parse (mount JSON_parse cached w) before) Hev) as [Hg Hk].
  fold st1 in Hg, Hk.
  split; [exact Hg |]. split; [exact Hk |]. split.
  { apply (signedOutOfGuest_run after st1 Hafter). split; [exact Hg |].
    rewrite Hk. discriminate. }
  split.
  { set (st2 := run JSON_parse st1 after).
    pose proof (coherent_signInAsGuest st2) as Hc.
    assert (Hst2 : coherent st2).
    { apply coherent_run. unfold st1. apply coherent_step, coherent_run, coherent_mount. }
    destruct (Hc Hst2) as [_ Hkey]. apply Hkey.
    unfold step, handle, signInAsGuest. simpl.
    unfold commit. simpl.
    destruct (Bool.eqb (isGuest st2) true) eqn:Hb.
    - unfold guestKey. simpl. apply lookup_insert_eq.
    - rewrite effect_guest by (unfold guestKey; simpl; apply lookup_insert_eq).
      simpl. unfold guestKey. simpl. apply lookup_insert_eq. }
  intros evs [Huser Hguest].
  pose proof (coherent_run evs _ (coherent_mount cached w)) as [Hc _].
  destruct (Hc Hguest) as [Hnone _]. contradiction.
Qed.

(** An operation that throws leaves the guest flag and the durable guest
    key as they were; it leaves the user as it was too, unless it is a
    sign-up whose account was created: then an attached observer has been
    given the new user. *)
Lemma failed_operation_obs (ev : Event) (st : State) :
  failed JSON_parse ev st = true ->
  isGuest (step JSON_parse st ev) = isGuest st /\
  guestKey (step JSON_parse st ev) = guestKey st /\
  match ev with
  | SignUpWithEmail (Resolved u) _ =>
      user (step JSON_parse st ev) = if listening st then Some u else user st
  | _ => user (step JSON_parse st ev) = user st
  end.
Proof.
  unfold failed, step, handle.
  destruct ev as [[u | e] | [u | e] | [u | e] [] | [] | | s | s | s | | u |];
    simpl; try discriminate; intros Hfail; try (repeat split; fail).
  - destruct (notify_obs (setCurrentUser (Some u) (setLoading true st)))
      as (Hu & Hg & _ & _ & Hk).
    unfold providerSession, guestKey in *. simpl in *. repeat split; assumption.
  - unfold logout in *. destruct (isGuest st) eqn:Hguest; simpl in *;
      [discriminate Hfail |].
    destruct s; simpl in *; [discriminate Hfail | repeat split; exact Hguest].
  - unfold resetPassword in *.
    destruct s; simpl in *; [discriminate Hfail | repeat split].
  - unfold sendVerificationEmail in *. destruct (user st) as [u |] eqn:Hu; simpl in *;
      [| discriminate Hfail].
    destruct (negb (emailVerified u)); simpl in *; [| discriminate Hfail].
    destruct s; simpl in *; [discriminate Hfail | repeat split; exact Hu].
Qed.

End Session.

Lemma guest_excludes_user_witness :
  AuthContext.isGuest
    (AuthContext.run sampleParse
       (AuthContext.step sampleParse
          (AuthContext.run sampleParse
             (AuthContext.mount sampleParse None (sampleEnv None None []))
             [AuthContext.SignInAsGuest])
          (AuthContext.SignInWithGoogle (AuthContext.Resolved sampleUser)))
       [AuthContext.Logout true; AuthContext.Reload]) = false.
Proof.
  apply (guest_excludes_user sampleParse None (sampleEnv None None [])
           [AuthContext.SignInAsGuest]
           (AuthContext.SignInWithGoogle (AuthContext.Resolved sampleUser))
           [AuthContext.Logout true; AuthContext.Reload]).
  - reflexivity.
  - repeat constructor.
Defined.

(** C9 -- a sign-up from the login screen whose account is created and
    whose verification email is rejected: the operation throws to its
    caller, and the user, absent before the call, is set after it. *)
Theorem failed_signUp_sets_user :
  AuthContext.user sampleUnauthenticated = None /\
  AuthContext.isGuest sampleUnauthenticated = false /\
  guestKey sampleUnauthenticated = None /\
  fst sampleFailedSignUp = Throw "sendEmailVerification rejected" /\
  AuthContext.user (snd sampleFailedSignUp) = Some sampleNewUser /\
  AuthContext.isGuest (snd sampleFailedSignUp) = false /\
  guestKey (snd sampleFailedSignUp) = None.
Proof. vm_compute. repeat split. Qed.

(* ===================================================================== *)
(** * Further properties of the store adapter *)
(* ===================================================================== *)

Section StoreAdapter.

Variable JSON_parse : string -> option AppData.

Local Abbreviation migrate := (FirestoreService.migrateLocalDataToFirestore JSON_parse).

Ltac run_store :=
  unfold FirestoreService.migrateLocalDataToFirestore,
         FirestoreService.getUserData, FirestoreService.saveUserData,
         FirestoreService.initializeUserData, FirestoreService.parseJSON,
         try_catch, bind, ret, throw, localStorage_getItem,
         localStorage_removeItem, getDoc, setDoc, next_outcome;
  simpl.

Lemma allResolve_next (net : list bool) :
  allResolve net ->
  fst (next_outcome net) = true /\ allResolve (snd (next_outcome net)).
Proof.
  intros H. destruct H as [| b net Hb H]; simpl.
  - split; [reflexivity | constructor].
  - split; assumption.
Qed.

(** X1 -- [getUserData] never throws; a record it returns is the user's
    document as the store holds it afterwards; and no document that exists
    is changed by it (the default record is only written where there was
    no document). *)
Theorem getUserData_reads_safely (userId : string) (w : Env) :
  (exists r : option AppData,
      fst (FirestoreService.getUserData userId w) = Ret r /\
      forall d : AppData,
        r = Some d ->
        firestore (snd (FirestoreService.getUserData userId w)) !! userId = Some d) /\
  (forall (u : string) (d : AppData),
      firestore w !! u = Some d ->
      firestore (snd (FirestoreService.getUserData userId w)) !! u = Some d).
Proof.
  run_store.
  destruct (network w) as [| [] net]; simpl;
    destruct (firestore w !! userId) as [d0 |] eqn:Hdoc; simpl;
    try (destruct net as [| [] net']; simpl);
    (split;
     [ eexists; split; [reflexivity |]; intros d Hd;
       first [ discriminate Hd
             | injection Hd as <-; first [ exact Hdoc | apply lookup_insert_eq ] ]
     | intros u d Hu;
       first [ exact Hu
             | destruct (decide (userId = u)) as [-> | Hne];
               [ congruence | rewrite lookup_insert_ne by exact Hne; exact Hu ] ] ]).
Qed.

(** X2 -- the first read for a user without a document creates the
    document with the all-empty default record and returns that record. *)
Theorem getUserData_initializes (userId : string) (w : Env) :
  firestore w !! userId = None ->
  allResolve (network w) ->
  fst (FirestoreService.getUserData userId w) = Ret (Some defaultData) /\
  firestore (snd (FirestoreService.getUserData userId w))
    = <[userId := defaultData]> (firestore w) /\
  calls (snd (FirestoreService.getUserData userId w))
    = calls w ++ [GetDoc userId true; SetDoc userId defaultData true].
Proof.
  intros Hdoc Hnet.
  destruct (allResolve_next _ Hnet) as [H1 Hnet'].
  destruct (allResolve_next _ Hnet') as [H2 _].
  run_store. unfold next_outcome in *.
  destruct (network w) as [| b net]; simpl in *; subst; rewrite Hdoc; simpl.
  - rewrite <- app_assoc. repeat split.
  - destruct net as [| b' net']; simpl in *; subst; simpl;
      rewrite <- app_assoc; repeat split.
Qed.

(** X3 -- [saveUserData] never throws.  It returns [true] exactly when the
    write resolved, and then the user's document is the record given; when
    it returns [false] no document has changed.  Other users' documents are
    untouched either way. *)
Theorem saveUserData_reports_write (userId : string) (data : AppData) (w : Env) :
  exists b : bool,
    fst (FirestoreService.saveUserData userId data w) = Ret b /\
    b = fst (next_outcome (network w)) /\
    (b = true ->
     firestore (snd (FirestoreService.saveUserData userId data w)) !! userId
       = Some data) /\
    (b = false ->
     firestore (snd (FirestoreService.saveUserData userId data w)) = firestore w) /\
    (forall u : string,
        u <> userId ->
        firestore (snd (FirestoreService.saveUserData userId data w)) !! u
          = firestore w !! u).
Proof.
  run_store. destruct (network w) as [| [] net]; simpl; eexists;
    (split; [reflexivity |]); (split; [reflexivity |]);
    (split; [intros Hb; first [discriminate Hb | apply lookup_insert_eq] |]);
    (split; [intros Hb; first [discriminate Hb | reflexivity] |]);
    intros u Hu; first [reflexivity | apply lookup_insert_ne; congruence].
Qed.

(** X4 -- what was saved is what is read back: when the remote calls
    resolve, [getUserData] after [saveUserData] returns the record that was
    saved. *)
Theorem save_then_get (userId : string) (data : AppData) (w : Env) :
  allResolve (network w) ->
  fst (FirestoreService.saveUserData userId data w) = Ret true /\
  fst (FirestoreService.getUserData userId
         (snd (FirestoreService.saveUserData userId data w)))
    = Ret (Some data).
Proof.
  intros Hnet.
  destruct (allResolve_next _ Hnet) as [H1 Hnet'].
  destruct (allResolve_next _ Hnet') as [H2 _].
  run_store. unfold next_outcome in *.
  destruct (network w) as [| b net]; simpl in *; subst; simpl.
  - rewrite lookup_insert_eq. split; reflexivity.
  - destruct net as [| b' net']; simpl in *; subst; simpl;
      rewrite lookup_insert_eq; split; reflexivity.
Qed.

(** The migration goes through the reads and writes of the adapter, which
    swallow every remote failure; what is left is summed up here. *)
Lemma migrate_shape (userId : string) (w : Env) :
  (fst (migrate userId w) = Ret true \/
   (fst (migrate userId w) = Ret false /\ snd (migrate userId w) = w /\
    exists s : string,
      localStorage w !! DATA_KEY = Some s /\ s <> "" /\ JSON_parse s = None)) /\
  (forall u : string, u <> userId ->
     firestore (snd (migrate userId w)) !! u = firestore w !! u).
Proof.
  run_store.
  destruct (localStorage w !! DATA_KEY) as [s |] eqn:Hlocal; simpl;
    [| split; [left; reflexivity | reflexivity]].
  destruct (decide (s = "")) as [-> | Hs]; simpl;
    [split; [left; reflexivity | reflexivity] |].
  destruct (JSON_parse s) as [L |] eqn:Hparse; simpl.
  - destruct (network w) as [| [] net]; simpl;
      destruct (firestore w !! userId) as [d0 |]; simpl;
      repeat (match goal with
              | |- context [if ?b then _ else _] => destruct b; simpl
              | |- context [match ?l with [] => _ | _ :: _ => _ end] =>
                  destruct l as [| [] ?]; simpl
              end);
      (split; [left; reflexivity |]); intros u Hu;
      rewrite ?lookup_insert_ne by congruence; reflexivity.
  - split; [| reflexivity]. right. split; [reflexivity |].
    split; [destruct w; reflexivity |]. exists s. auto.
Qed.

(** X5 -- the migration reports failure in one case only: the local entry
    is there and [JSON.parse] throws on it; nothing has been touched then.
    A remote read or write that rejects is never reported: the result is
    [true]. *)
Theorem migrate_false_iff_unparsable (userId : string) (w : Env) :
  (fst (migrate userId w) = Ret false <->
   exists s : string,
     localStorage w !! DATA_KEY = Some s /\ s <> "" /\ JSON_parse s = None) /\
  (fst (migrate userId w) = Ret false -> snd (migrate userId w) = w) /\
  (fst (migrate userId w) <> Ret false -> fst (migrate userId w) = Ret true).
Proof.
  destruct (migrate_shape userId w) as [[Htrue | (Hfalse & Hsame & Hwhy)] _].
  - split; [split |]; [rewrite Htrue; discriminate | | split].
    + intros (s & Hlocal & Hs & Hparse). exfalso. revert Htrue. run_store.
      rewrite Hlocal. simpl. destruct (decide (s = "")); [contradiction |].
      simpl. rewrite Hparse. discriminate.
    + rewrite Htrue. discriminate.
    + intros _. exact Htrue.
  - split; [split |]; [intros _; exact Hwhy | intros _; exact Hfalse | split].
    + intros _. exact Hsame.
    + intros Hne. contradiction.
Qed.

(** X6 -- a read that rejects counts as "no remote data": when the read of
    the user's document rejects and the following write resolves, the local
    record replaces the remote document, whatever that document held, and
    the local entry is removed. *)
Theorem migrate_overwrites_after_failed_read (userId s : string) (L R : AppData)
    (net : list bool) (w : Env) :
  localStorage w !! DATA_KEY = Some s ->
  s <> "" ->
  JSON_parse s = Some L ->
  firestore w !! userId = Some R ->
  network w = false :: true :: net ->
  fst (migrate userId w) = Ret true /\
  firestore (snd (migrate userId w)) !! userId = Some L /\
  localStorage (snd (migrate userId w)) !! DATA_KEY = None /\
  calls (snd (migrate userId w)) =
    calls w ++ [GetDoc userId false; SetDoc userId L true; RemoveItem DATA_KEY].
Proof.
  intros Hlocal Hs Hparse Hremote Hnet. run_store.
  rewrite Hlocal. simpl. destruct (decide (s = "")); [contradiction |]. simpl.
  rewrite Hparse. simpl. rewrite Hnet. simpl. rewrite <- !app_assoc. simpl.
  split; [reflexivity |]. split; [apply lookup_insert_eq |].
  split; [apply lookup_delete_eq | reflexivity].
Qed.

(** X7 -- the migration for one user stays within that user's document and
    the data key: every other user's document and every other local key
    are as before. *)
Theorem migrate_touches_only_own (userId : string) (w : Env) :
  (forall u : string, u <> userId ->
     firestore (snd (migrate userId w)) !! u = firestore w !! u) /\
  (forall key : string, key <> DATA_KEY ->
     localStorage (snd (migrate userId w)) !! key = localStorage w !! key).
Proof.
  split.
  - apply migrate_shape.
  - intros key Hkey. apply migrate_other_keys, Hkey.
Qed.

End StoreAdapter.

Lemma getUserData_initializes_witness :
  fst (FirestoreService.getUserData "u1" (sampleEnv None None []))
    = Ret (Some defaultData) /\
  firestore (snd (FirestoreService.getUserData "u1" (sampleEnv None None [])))
    !! "u1" = Some defaultData.
Proof.
  destruct (getUserData_initializes "u1" (sampleEnv None None []))
    as (Hret & Hstore & _).
  - reflexivity.
  - constructor.
  - split; [exact Hret |]. rewrite Hstore. apply lookup_insert_eq.
Defined.

Lemma save_then_get_witness :
  fst (FirestoreService.getUserData "u1"
         (snd (FirestoreService.saveUserData "u1" sampleLocal
                 (sampleEnv (Some sampleRemote) None [true; true]))))
    = Ret (Some sampleLocal).
Proof.
  apply (save_then_get "u1" sampleLocal
           (sampleEnv (Some sampleRemote) None [true; true])).
  repeat constructor.
Defined.

(** The remote record holds an expense; the read rejects, the write
    resolves: the expense is gone. *)
Lemma migrate_overwrites_after_failed_read_witness :
  firestore
    (snd (FirestoreService.migrateLocalDataToFirestore sampleParse "u1"
            (sampleEnv (Some sampleRemote) (Some sampleJSON) [false; true])))
    !! "u1" = Some sampleLocal.
Proof.
  apply (migrate_overwrites_after_failed_read sampleParse "u1" sampleJSON
           sampleLocal sampleRemote []
           (sampleEnv (Some sampleRemote) (Some sampleJSON) [false; true])).
  - reflexivity.
  - discriminate.
  - reflexivity.
  - reflexivity.
  - reflexivity.
Defined.

(** ** The registry of document listeners *)

Section ListenerRegistry.

Import Listeners.

(** Ending the subscriptions of a list of registered entries: a
    subscription is gone when one of the entries holds it, and stays what
    it was otherwise. *)
Lemma lookup_after_unsubscribing (entries : list (string * nat))
    (subs : gmap nat string) (h : nat) :
  (In h (map snd entries) ->
   foldr (fun entry acc => delete (snd entry) acc) subs entries !! h = None) /\
  (~ In h (map snd entries) ->
   foldr (fun entry acc => delete (snd entry) acc) subs entries !! h = subs !! h).
Proof.
  induction entries as [| [k h'] entries [IHin IHout]]; simpl.
  - split; [contradiction | reflexivity].
  - destruct (decide (h' = h)) as [-> | Hne].
    + rewrite lookup_delete_eq. split; [reflexivity |].
      intros Hn. exfalso. apply Hn. now left.
    + rewrite lookup_delete_ne by exact Hne. split.
      * intros [Heq | Hin]; [contradiction | apply IHin, Hin].
      * intros Hn. apply IHout. intros Hin. apply Hn. now right.
Qed.

Lemma registered_handle (s : Service) (h : nat) :
  In h (map snd (map_to_list (unsubscribeFunctions s))) <->
  exists listenerId : string, unsubscribeFunctions s !! listenerId = Some h.
Proof.
  rewrite in_map_iff. split.
  - intros ([k h'] & Hh & Hin). simpl in Hh. subst h'. exists k.
    apply elem_of_map_to_list, list_elem_of_In, Hin.
  - intros (k & Hk). exists (k, h). split; [reflexivity |].
    apply list_elem_of_In, elem_of_map_to_list, Hk.
Qed.

(** X8 -- [cleanup] ends exactly the registered subscriptions: afterwards
    the registry is empty, every subscription that had a registered
    unsubscribe function is gone, and a live subscription without one is
    still live. *)
Theorem cleanup_ends_registered (s : Service) :
  unsubscribeFunctions (cleanup s) = ∅ /\
  (forall (listenerId : string) (h : nat),
      unsubscribeFunctions s !! listenerId = Some h ->
      subscriptions (cleanup s) !! h = None) /\
  (forall h : nat,
      (forall listenerId : string, unsubscribeFunctions s !! listenerId <> Some h) ->
      subscriptions (cleanup s) !! h = subscriptions s !! h).
Proof.
  unfold cleanup. simpl. split; [reflexivity |]. split.
  - intros k h Hk. apply lookup_after_unsubscribing, registered_handle. eauto.
  - intros h Hfree. apply lookup_after_unsubscribing.
    intros Hin. apply registered_handle in Hin as (k & Hk). exact (Hfree k Hk).
Qed.

Lemma wellFormed_listen (userId : string) (s : Service) :
  wellFormed s -> wellFormed (snd (listenForUserData userId s)).
Proof.
  intros H k h. unfold listenForUserData. simpl.
  destruct (decide (String.append "user-" userId = k)) as [<- | Hne].
  - rewrite lookup_insert_eq. intros [= <-]. lia.
  - rewrite lookup_insert_ne by exact Hne. intros Hk. specialize (H k h Hk). lia.
Qed.

(** X9 -- listening twice for the same user loses the first subscription:
    the second call replaces the registered unsubscribe function without
    calling it, so the first subscription stays live after [stopListening]
    of the returned id and after [cleanup]. *)
Theorem second_listen_leaks_first (userId : string) (s : Service) :
  wellFormed s ->
  let first := listenForUserData userId s in
  let second := listenForUserData userId (snd first) in
  fst first = fst second /\
  subscriptions (snd second) !! issued s = Some userId /\
  subscriptions (stopListening (fst second) (snd second)) !! issued s = Some userId /\
  subscriptions (cleanup (snd second)) !! issued s = Some userId /\
  unsubscribeFunctions (stopListening (fst second) (snd second))
    !! fst second = None.
Proof.
  intros Hwf first second. subst first second. simpl.
  split; [reflexivity |].
  assert (Hlive : <[S (issued s) := userId]> (<[issued s := userId]> (subscriptions s))
                    !! issued s = Some userId).
  { rewrite lookup_insert_ne by lia. apply lookup_insert_eq. }
  split; [exact Hlive |]. split; [| split].
  - unfold stopListening. simpl. rewrite lookup_insert_eq. simpl.
    rewrite lookup_delete_ne by lia. exact Hlive.
  - unfold cleanup. simpl.
    destruct (lookup_after_unsubscribing
                (map_to_list
                   (<[String.append "user-" userId := S (issued s)]>
                      (<[String.append "user-" userId := issued s]>
                         (unsubscribeFunctions s))))
                (<[S (issued s) := userId]> (<[issued s := userId]> (subscriptions s)))
                (issued s)) as [_ Hkeep].
    rewrite Hkeep; [exact Hlive |].
    intros Hin.
    apply (registered_handle
             (mkService
                (<[String.append "user-" userId := S (issued s)]>
                   (<[String.append "user-" userId := issued s]>
                      (unsubscribeFunctions s)))
                ∅ 0)) in Hin as (k & Hk).
    simpl in Hk. rewrite insert_insert_eq in Hk.
    destruct (decide (String.append "user-" userId = k)) as [<- | Hne].
    + rewrite lookup_insert_eq in Hk. injection Hk as Hbad. lia.
    + rewrite lookup_insert_ne in Hk by exact Hne.
      specialize (Hwf k _ Hk). lia.
  - unfold stopListening. simpl. rewrite lookup_insert_eq. simpl.
    apply lookup_delete_eq.
Qed.

(** X10 -- listen, then stop with the id that was returned: when the user
    had no listener before, the registry and the live subscriptions are
    what they were before the two calls. *)
Theorem listen_then_stop (userId : string) (s : Service) :
  unsubscribeFunctions s !! String.append "user-" userId = None ->
  subscriptions s !! issued s = None ->
  unsubscribeFunctions
    (stopListening (fst (listenForUserData userId s))
                   (snd (listenForUserData userId s)))
    = unsubscribeFunctions s /\
  subscriptions
    (stopListening (fst (listenForUserData userId s))
                   (snd (listenForUserData userId s)))
    = subscriptions s.
Proof.
  intros Hnew Hfree. unfold stopListening, listenForUserData. simpl.
  rewrite lookup_insert_eq. simpl.
  rewrite delete_insert_eq, delete_insert_eq.
  split; apply delete_id; assumption.
Qed.

End ListenerRegistry.

Lemma second_listen_leaks_first_witness :
  Listeners.subscriptions
    (Listeners.cleanup
       (snd (Listeners.listenForUserData "u1"
               (snd (Listeners.listenForUserData "u1" Listeners.fresh)))))
    !! 0 = Some "u1".
Proof.
  apply (second_listen_leaks_first "u1" Listeners.fresh).
  intros k h Hk. simpl in Hk. rewrite lookup_empty in Hk. discriminate Hk.
Defined.

Lemma listen_then_stop_witness :
  Listeners.subscriptions
    (Listeners.stopListening
       (fst (Listeners.listenForUserData "u1" Listeners.fresh))
       (snd (Listeners.listenForUserData "u1" Listeners.fresh)))
  = Listeners.subscriptions Listeners.fresh.
Proof.
  apply (listen_then_stop "u1" Listeners.fresh); apply lookup_empty.
Defined.

(** ** Mutations and the totals *)

Section Totals.

Import App Handlers.

(** A number above 0 is neither [NaN] nor a zero. *)
Lemma positive_is_a_number (x : number) :
  (0 <? x)%float = true -> is_nan x = false /\ is_zero x = false.
Proof.
  intros H. unfold is_nan, is_zero.
  rewrite FloatAxioms.ltb_spec in H. rewrite !FloatAxioms.eqb_spec.
  change (Prim2SF 0) with (S754_zero false) in *.
  change (Prim2SF zero) with (S754_zero false) in *.
  destruct (Prim2SF x) as [s | s | | s m e]; simpl in *; try discriminate H.
  - destruct s; [discriminate H | split; reflexivity].
  - unfold SFltb, SFeqb in *. simpl in *. destruct s; [discriminate H |].
    split; [| reflexivity].
    rewrite Z.compare_refl, Pos.compare_cont_refl. reflexivity.
Qed.

Lemma orZero_positive (x : number) :
  (0 <? orZero x)%float = true <-> (0 <? x)%float = true.
Proof.
  unfold orZero. split; intros H.
  - destruct (is_nan x || is_zero x); [discriminate H | exact H].
  - destruct (positive_is_a_number x H) as [-> ->]. exact H.
Qed.

Lemma orZero_of_positive (x : number) :
  (0 <? x)%float = true -> orZero x = x.
Proof.
  intros H. unfold orZero. now destruct (positive_is_a_number x H) as [-> ->].
Qed.

(** X11 -- "Marked Paid" takes the number in the income field when it is
    above 0, and nothing else: then it appends one income entry of exactly
    that amount, adds it to the income total and resets the forecast to 0;
    with [NaN], a zero or a negative number the record is not changed. *)
Theorem addIncome_takes_positive_amounts (parsed : number)
    (generatedId today : string) (prev : AppData) :
  ((0 <? parsed)%float = true ->
   exists next : AppData,
     addIncome parsed generatedId today prev = Some next /\
     incomeHistory next =
       incomeHistory prev ++ [IncomeHistory.mk generatedId parsed today] /\
     totalHistoryIncome next = (totalHistoryIncome prev + parsed)%float /\
     weeklyEstimate next = 0%float /\
     bills next = bills prev /\ expenses next = expenses prev /\
     wishlist next = wishlist prev) /\
  ((0 <? parsed)%float = false ->
   addIncome parsed generatedId today prev = None /\
   perform (MarkPaid parsed generatedId today) prev = prev).
Proof.
  split; intros H.
  - unfold addIncome. rewrite (orZero_of_positive parsed H), H.
    eexists. split; [reflexivity |]. simpl.
    split; [reflexivity |]. split; [| repeat split].
    unfold totalHistoryIncome. simpl. rewrite fold_left_app. reflexivity.
  - assert (Hz : (0 <? orZero parsed)%float = false).
    { destruct (0 <? orZero parsed)%float eqn:Hp; [| reflexivity].
      apply (proj1 (orZero_positive parsed)) in Hp. rewrite H in Hp. discriminate Hp. }
    unfold perform, addIncome. rewrite Hz. split; reflexivity.
Qed.

(** X12 -- buying a wishlist item costs exactly its price: the expense
    total grows by the price, income and bill totals are untouched, and the
    confirmed balance is income minus the new expense total minus paid
    bills. *)
Theorem purchase_costs_the_price (generatedId today : string)
    (item : WishlistItem.t) (prev : AppData) :
  let next := markWishlistAsPurchased generatedId today item prev in
  totalExpenses next = (totalExpenses prev + WishlistItem.price item)%float /\
  totalHistoryIncome next = totalHistoryIncome prev /\
  totalPaidBills next = totalPaidBills prev /\
  totalUnpaidBills next = totalUnpaidBills prev /\
  totalHeldDeposits next = totalHeldDeposits prev /\
  confirmedBalance next =
    (totalHistoryIncome prev
     - (totalExpenses prev + WishlistItem.price item)
     - totalPaidBills prev)%float.
Proof.
  intros next. subst next.
  assert (He : totalExpenses (markWishlistAsPurchased generatedId today item prev)
               = (totalExpenses prev + WishlistItem.price item)%float).
  { unfold totalExpenses, markWishlistAsPurchased. simpl.
    rewrite fold_left_app. reflexivity. }
  split; [exact He |]. unfold confirmedBalance. rewrite He. repeat split.
Qed.

(** X13 -- a new bill is unpaid and no deposit: it raises the total of
    unpaid bills by its amount and leaves the paid total, the held deposits
    and the confirmed balance as they were. *)
Theorem addBill_raises_unpaid_total (nameVal dateVal generatedId : string)
    (amtVal : number) (prev next : AppData) :
  addBill nameVal amtVal dateVal generatedId prev = Some next ->
  totalUnpaidBills next = (totalUnpaidBills prev + amtVal)%float /\
  totalPaidBills next = totalPaidBills prev /\
  totalHeldDeposits next = totalHeldDeposits prev /\
  confirmedBalance next = confirmedBalance prev /\
  is_nan amtVal = false /\ nameVal <> "".
Proof.
  unfold addBill, nonEmpty. intros H.
  destruct (decide (nameVal = "")) as [| Hname]; [discriminate H |].
  destruct (is_nan amtVal) eqn:Hnan; [discriminate H |].
  injection H as <-.
  unfold confirmedBalance, totalUnpaidBills, totalPaidBills, totalHeldDeposits,
    totalHistoryIncome, totalExpenses.
  simpl. rewrite !List.filter_app. simpl. rewrite !app_nil_r, fold_left_app.
  repeat split. exact Hname.
Qed.

(** X14 -- a new expense raises the expense total by its amount and lowers
    nothing else: the confirmed balance becomes income minus the new
    expense total minus paid bills. *)
Theorem addExpense_raises_expense_total (descVal generatedId today : string)
    (amtVal : number) (catVal : ExpenseCategory) (prev next : AppData) :
  addExpense descVal amtVal catVal generatedId today prev = Some next ->
  totalExpenses next = (totalExpenses prev + amtVal)%float /\
  confirmedBalance next =
    (totalHistoryIncome prev - (totalExpenses prev + amtVal)
     - totalPaidBills prev)%float /\
  expenses next =
    expenses prev ++ [Expense.mk generatedId descVal amtVal catVal today].
Proof.
  unfold addExpense, nonEmpty. intros H.
  destruct (decide (descVal = "")); [discriminate H |].
  destruct (is_nan amtVal); [discriminate H |].
  injection H as <-.
  unfold confirmedBalance, totalPaidBills, totalHistoryIncome, totalExpenses.
  simpl. rewrite fold_left_app. repeat split.
Qed.

End Totals.

Lemma addBill_raises_unpaid_total_witness :
  App.totalUnpaidBills sampleLocal = 50%float /\
  App.confirmedBalance sampleLocal = App.confirmedBalance defaultData.
Proof.
  destruct (addBill_raises_unpaid_total "Rent" "2024-05-01" "b1" 50%float
              defaultData sampleLocal) as (Hunpaid & _ & _ & Hbalance & _).
  - reflexivity.
  - split; [rewrite Hunpaid; reflexivity | exact Hbalance].
Defined.

Lemma addExpense_raises_expense_total_witness :
  App.totalExpenses sampleRemote = 12%float.
Proof.
  destruct (addExpense_raises_expense_total "Lunch" "e1" "2024-04-30" 12%float
              Food defaultData sampleRemote) as (Htotal & _).
  - reflexivity.
  - rewrite Htotal. reflexivity.
Defined.

(** ** What the actions keep *)

Section Actions.

Import App Handlers.

Lemma Forall_filter_keeps {A} (P : A -> Prop) (keep : A -> bool) (l : list A) :
  Forall P l -> Forall P (List.filter keep l).
Proof.
  induction 1 as [| a l Ha Hl IH]; simpl; [constructor |].
  destruct (keep a); [constructor; assumption | assumption].
Qed.

Lemma perform_incomesPositive (a : Action) (d : AppData) :
  incomesPositive d -> incomesPositive (perform a d).
Proof.
  intros H. unfold incomesPositive in *.
  destruct a; simpl; try exact H.
  - unfold addIncome. destruct (0 <? orZero parsed)%float eqn:Hp; simpl; [| exact H].
    apply Forall_app. split; [exact H |]. repeat constructor. exact Hp.
  - apply Forall_filter_keeps, H.
  - unfold addBill. destruct (_ && _); exact H.
  - unfold addExpense. destruct (_ && _); exact H.
  - unfold addWishlist. destruct (_ && _); exact H.
Qed.

Lemma perform_noDeposits (a : Action) (d : AppData) :
  noDeposits d -> noDeposits (perform a d).
Proof.
  intros H. unfold noDeposits in *.
  destruct a; simpl; try exact H.
  - unfold addIncome. destruct (0 <? orZero parsed)%float; exact H.
  - unfold addBill. destruct (_ && _); simpl; [| exact H].
    apply Forall_app. split; [exact H |]. repeat constructor.
  - induction H as [| b bs Hb Hbs IH]; simpl; [constructor |].
    constructor; [| exact IH]. destruct (decide _); simpl; exact Hb.
  - apply Forall_filter_keeps, H.
  - unfold addExpense. destruct (_ && _); exact H.
  - unfold addWishlist. destruct (_ && _); exact H.
Qed.

Lemma noDeposits_nothing_held (d : AppData) :
  noDeposits d -> totalHeldDeposits d = 0%float.
Proof.
  unfold noDeposits, totalHeldDeposits. intros H.
  assert (Hnone : List.filter
                    (fun b => Bill.isPaid b && truthy (Bill.isDeposit b))
                    (bills d) = []).
  { induction H as [| b bs Hb Hbs IH]; simpl; [reflexivity |].
    rewrite Hb, andb_false_r. exact IH. }
  rewrite Hnone. reflexivity.
Qed.

(** X15 -- income entries stay above 0: if every income entry of a record
    has an amount above 0, so has every income entry after any sequence of
    the application's actions. *)
Theorem actions_keep_incomes_positive (actions : list Action) (start : AppData) :
  incomesPositive start -> incomesPositive (performAll actions start).
Proof.
  revert start. induction actions as [| a actions IH]; intros start H; simpl.
  - exact H.
  - apply IH, perform_incomesPositive, H.
Qed.

(** X16 -- no action of the application makes a bill a deposit: a record
    without deposits has none after any sequence of actions, and its held
    deposits are 0.  In particular this holds of every record built from
    the empty one. *)
Theorem actions_make_no_deposit (actions : list Action) (start : AppData) :
  noDeposits start ->
  noDeposits (performAll actions start) /\
  totalHeldDeposits (performAll actions start) = 0%float /\
  totalHeldDeposits (performAll actions defaultData) = 0%float.
Proof.
  assert (Hall : forall acts d, noDeposits d -> noDeposits (performAll acts d)).
  { intros acts. induction acts as [| a acts IH]; intros d H; simpl.
    - exact H.
    - apply IH, perform_noDeposits, H. }
  intros H. split; [apply Hall, H |]. split.
  - apply noDeposits_nothing_held, Hall, H.
  - apply noDeposits_nothing_held, Hall. constructor.
Qed.

(** X17 -- checking a bill twice gives back the record: toggling the paid
    flag of an id is its own inverse. *)
Theorem toggleBillPaid_twice (id : string) (d : AppData) :
  toggleBillPaid id (toggleBillPaid id d) = d.
Proof.
  unfold toggleBillPaid. destruct d as [we ih bs wl es]. simpl. f_equal.
  rewrite map_map. induction bs as [| b bs IH]; simpl; [reflexivity |].
  rewrite IH. f_equal.
  destruct (decide (Bill.id b = id)) as [Hb | Hb]; simpl.
  - destruct (decide (Bill.id b = id)); [| contradiction].
    destruct b. simpl. now rewrite negb_involutive.
  - destruct (decide (Bill.id b = id)); [contradiction | reflexivity].
Qed.

(** X18 -- a delete button removes every entry with the id and keeps the
    others; doing it again, or for an id that is not there, changes
    nothing.  Stated for bills; the three other delete buttons are the same
    filter on their own sequence. *)
Theorem deleteBill_removes_id (id : string) (d : AppData) :
  (forall b : Bill.t,
      In b (bills (deleteBill id d)) <-> In b (bills d) /\ Bill.id b <> id) /\
  deleteBill id (deleteBill id d) = deleteBill id d /\
  ((forall b : Bill.t, In b (bills d) -> Bill.id b <> id) -> deleteBill id d = d) /\
  incomeHistory (deleteBill id d) = incomeHistory d /\
  expenses (deleteBill id d) = expenses d /\
  wishlist (deleteBill id d) = wishlist d /\
  weeklyEstimate (deleteBill id d) = weeklyEstimate d.
Proof.
  split; [| split; [| split; [| repeat split]]].
  - intros b. unfold deleteBill. simpl. rewrite List.filter_In.
    destruct (decide (Bill.id b = id)); intuition congruence.
  - unfold deleteBill. simpl. f_equal.
    induction (bills d) as [| b bs IH]; simpl; [reflexivity |].
    destruct (decide (Bill.id b = id)) as [Hb | Hb]; simpl; [exact IH |].
    destruct (decide (Bill.id b = id)); [contradiction |]. now rewrite IH.
  - intros Habsent. unfold deleteBill. destruct d as [we ih bs wl es]. simpl in *.
    f_equal. induction bs as [| b bs IH]; simpl; [reflexivity |].
    destruct (decide (Bill.id b = id)) as [Hb | Hb].
    + exfalso. apply (Habsent b); [now left | exact Hb].
    + f_equal. apply IH. intros b' Hb'. apply Habsent. now right.
Qed.

(** X19 -- pinning twice shows the same items as before: the pin button
    keeps ids, names and prices, flips the pinned state of the items with
    the id and of no other, and after two clicks the pinned items are those
    pinned at the start. *)
Theorem togglePin_twice (id : string) (d : AppData) :
  map WishlistItem.id (wishlist (togglePin id d)) = map WishlistItem.id (wishlist d) /\
  map WishlistItem.price (wishlist (togglePin id d))
    = map WishlistItem.price (wishlist d) /\
  map (fun i => truthy (WishlistItem.isPinned i)) (wishlist (togglePin id d))
    = map (fun i => if decide (WishlistItem.id i = id)
                    then negb (truthy (WishlistItem.isPinned i))
                    else truthy (WishlistItem.isPinned i))
          (wishlist d) /\
  map WishlistItem.id (pinnedWishlistItems (togglePin id (togglePin id d)))
    = map WishlistItem.id (pinnedWishlistItems d).
Proof.
  assert (Htruthy : forall b : bool, truthy (Some b) = b) by (intros []; reflexivity).
  unfold togglePin, pinnedWishlistItems. simpl.
  set (flip := fun item : WishlistItem.t =>
                 if decide (WishlistItem.id item = id) then
                   WishlistItem.mk (WishlistItem.id item) (WishlistItem.name item)
                     (WishlistItem.price item) (WishlistItem.priority item)
                     (Some (negb (truthy (WishlistItem.isPinned item))))
                 else item).
  assert (Hid : forall i, WishlistItem.id (flip i) = WishlistItem.id i).
  { intros i. unfold flip. destruct (decide _); reflexivity. }
  assert (Hprice : forall i, WishlistItem.price (flip i) = WishlistItem.price i).
  { intros i. unfold flip. destruct (decide _); reflexivity. }
  assert (Hpin : forall i, truthy (WishlistItem.isPinned (flip i))
                           = if decide (WishlistItem.id i = id)
                             then negb (truthy (WishlistItem.isPinned i))
                             else truthy (WishlistItem.isPinned i)).
  { intros i. unfold flip. destruct (decide _); [apply Htruthy | reflexivity]. }
  assert (Hback : forall i, truthy (WishlistItem.isPinned (flip (flip i)))
                            = truthy (WishlistItem.isPinned i)).
  { intros i. rewrite Hpin, Hid, Hpin.
    destruct (decide _); [apply negb_involutive | reflexivity]. }
  split; [| split; [| split]].
  - rewrite map_map. apply map_ext. exact Hid.
  - rewrite map_map. apply map_ext. exact Hprice.
  - rewrite map_map. apply map_ext. exact Hpin.
  - rewrite map_map.
    induction (wishlist d) as [| i rest IH]; simpl; [reflexivity |].
    rewrite Hback. destruct (truthy (WishlistItem.isPinned i)); simpl.
    + rewrite !Hid. now f_equal.
    + exact IH.
Qed.

End Actions.

Lemma actions_keep_incomes_positive_witness :
  incomesPositive
    (Handlers.performAll
       [ Handlers.MarkPaid 300%float "i1" "2024-05-03";
         Handlers.MarkPaid (-20)%float "i2" "2024-05-04";
         Handlers.DeleteIncome "i9" ]
       defaultData).
Proof.
  apply (actions_keep_incomes_positive
           [ Handlers.MarkPaid 300%float "i1" "2024-05-03";
             Handlers.MarkPaid (-20)%float "i2" "2024-05-04";
             Handlers.DeleteIncome "i9" ] defaultData).
  constructor.
Defined.

Lemma actions_make_no_deposit_witness :
  App.totalHeldDeposits
    (Handlers.performAll
       [ Handlers.AddBill "Deposit" 400%float "2024-05-01" "b1";
         Handlers.ToggleBillPaid "b1" ]
       sampleLocal) = 0%float.
Proof.
  apply (actions_make_no_deposit
           [ Handlers.AddBill "Deposit" 400%float "2024-05-01" "b1";
             Handlers.ToggleBillPaid "b1" ] sampleLocal).
  repeat constructor.
Defined.

(** ** More on the save effect *)

Section SaveEffectMore.

Import App.

Local Abbreviation mutation := (AppData -> AppData).

Lemma notSaving_step (f : mutation) (dt : nat) (st : State) :
  notSaving st ->
  notSaving (advance dt (setData f st)) /\
  env (advance dt (setData f st)) = env st /\
  data (advance dt (setData f st)) = f (data st).
Proof.
  intros H. unfold notSaving, advance, setData, saveEffect in *. simpl.
  assert (Hnone : match user st with
                  | Some u =>
                      if negb (isGuest st) && negb (isLoadingData st)
                      then Some (mkTimer (now st + 500) (uid u) (f (data st)))
                      else None
                  | None => None
                  end = None).
  { destruct H as [-> | [-> | ->]]; [reflexivity | |];
      destruct (user st); simpl; rewrite ?andb_false_r; reflexivity. }
  rewrite Hnone. simpl. repeat split. exact H.
Qed.

(** X20 -- only a signed-in session whose document has arrived saves:
    without a user, as a guest, or while the data is still loading, any
    burst of mutations changes the record in memory and makes no store
    call at all. *)
Theorem no_save_unless_signed_in_and_loaded (ms : list (mutation * nat))
    (st : State) :
  notSaving st ->
  env (burst ms st) = env st /\
  data (burst ms st) = applyAll ms (data st) /\
  notSaving (burst ms st).
Proof.
  revert st. induction ms as [| [f dt] ms IH]; intros st H; simpl.
  - repeat split. exact H.
  - destruct (notSaving_step f dt st H) as (H' & He & Hd).
    destruct (IH _ H') as (He' & Hd' & H'').
    unfold burst in *. simpl. rewrite He', Hd', He, Hd. repeat split. exact H''.
Qed.

Lemma saving_after_long_wait (u : User) (f : mutation) (wait : nat) (st : State) :
  saving u st -> saving u (advance wait (setData f st)).
Proof.
  intros (Hu & Hg & Hl). unfold saving, advance, setData, saveEffect. simpl.
  rewrite Hu, Hg, Hl. simpl.
  destruct (now st + 500 <=? now st + wait)%nat; simpl; repeat split; assumption.
Qed.

(** X21 -- mutations that are at least 500 ms apart are not coalesced: each
    one is written on its own, in order, so a burst of [n] of them adds [n]
    calls of [setDoc], the [i]-th carrying the record after the [i]-th
    mutation. *)
Theorem spaced_mutations_each_write (u : User) (ms : list (mutation * nat))
    (st : State) :
  saving u st ->
  Forall (fun m => 500 <= snd m) ms ->
  exists resolved : list bool,
    length resolved = length ms /\
    calls (env (burst ms st)) =
      calls (env st) ++
      zip_with (SetDoc (uid u)) (recordsAfter ms (data st)) resolved /\
    data (burst ms st) = applyAll ms (data st).
Proof.
  revert st. induction ms as [| [f dt] ms IH]; intros st Hst Hgaps; simpl.
  - exists []. rewrite app_nil_r. repeat split.
  - apply Forall_cons in Hgaps as [Hdt Hgaps]. simpl in Hdt.
    destruct (mutation_then_long_wait u f dt st Hst Hdt) as (Hd & _ & Hc).
    pose proof (saving_after_long_wait u f dt st Hst) as Hst'.
    destruct (IH _ Hst' Hgaps) as (flags & Hlen & Hcalls & Hdata).
    exists (fst (next_outcome (network (env st))) :: flags).
    unfold burst in *. simpl. split; [now rewrite Hlen |].
    rewrite Hcalls, Hc, Hdata, Hd, <- app_assoc. split; reflexivity.
Qed.

(** X22 -- every snapshot the document listener delivers to a signed-in
    user is written back 500 ms later; when the listener reports no data (a
    missing document, or a listener error) the record in memory becomes the
    empty default and it is this empty record that is written to the user's
    document. *)
Theorem snapshot_is_written_back (u : User) (firestoreData : option AppData)
    (wait : nat) (st : State) :
  user st = Some u ->
  isGuest st = false ->
  500 <= wait ->
  let st' := advance wait (onSnapshot firestoreData st) in
  data st' = default defaultData firestoreData /\
  isLoadingData st' = false /\
  calls (env st') =
    calls (env st) ++
    [SetDoc (uid u) (default defaultData firestoreData)
            (fst (next_outcome (network (env st))))] /\
  (fst (next_outcome (network (env st))) = true ->
   firestore (env st') !! uid u = Some (default defaultData firestoreData)).
Proof.
  intros Hu Hg Hwait st'. subst st'.
  unfold advance, onSnapshot, setIsLoadingData, setData, saveEffect. simpl.
  rewrite Hu, Hg. simpl.
  destruct (now st + 500 <=? now st + wait)%nat eqn:Hdue;
    [| apply Nat.leb_gt in Hdue; lia].
  simpl. split; [reflexivity |]. split; [reflexivity |].
  unfold FirestoreService.saveUserData, try_catch, bind, ret, setDoc.
  destruct (network (env st)) as [| [] net]; simpl;
    (split; [reflexivity |]); intros Hok;
    first [discriminate Hok | apply lookup_insert_eq].
Qed.

End SaveEffectMore.

Lemma no_save_unless_signed_in_and_loaded_witness :
  calls (App.env (App.burst sampleBurst
                    (App.mkState defaultData true (Some sampleUser) false None 0
                       (sampleEnv (Some defaultData) None []))))
  = [].
Proof.
  destruct (no_save_unless_signed_in_and_loaded sampleBurst
              (App.mkState defaultData true (Some sampleUser) false None 0
                 (sampleEnv (Some defaultData) None []))) as (Henv & _).
  - right. right. reflexivity.
  - rewrite Henv. reflexivity.
Defined.

(** Two forecasts, each followed by 600 ms: two writes. *)
Lemma spaced_mutations_each_write_witness :
  exists resolved : list bool,
    length resolved = 2 /\
    calls (App.env (App.burst [ (App.saveForecast 10%float, 600);
                                (App.saveForecast 20%float, 600) ]
                      sampleSignedIn))
    = zip_with (SetDoc "u1")
        [ mkAppData 10%float [] [] [] []; mkAppData 20%float [] [] [] [] ]
        resolved.
Proof.
  destruct (spaced_mutations_each_write sampleUser
              [ (App.saveForecast 10%float, 600); (App.saveForecast 20%float, 600) ]
              sampleSignedIn) as (resolved & Hlen & Hcalls & _).
  - repeat split.
  - repeat constructor; simpl; lia.
  - exists resolved. split; [exact Hlen | exact Hcalls].
Defined.

(** The listener reports no data for a user whose document holds an
    expense: half a second later the document is the empty record. *)
Lemma snapshot_is_written_back_witness :
  firestore
    (App.env (App.advance 500
                (App.onSnapshot None
                   (App.mkState defaultData true (Some sampleUser) false None 0
                      (sampleEnv (Some sampleRemote) None [])))))
    !! "u1" = Some defaultData.
Proof.
  apply (snapshot_is_written_back sampleUser None 500
           (App.mkState defaultData true (Some sampleUser) false None 0
              (sampleEnv (Some sampleRemote) None []))).
  - reflexivity.
  - reflexivity.
  - lia.
  - reflexivity.
Defined.

Section GuestLoad.

Variable JSON_parse : string -> option AppData.

Import App.

Lemma guest_setData (f : AppData -> AppData) (st : State) :
  user st = None ->
  user (setData f st) = None /\ env (setData f st) = env st /\
  timeoutId (setData f st) = None /\ data (setData f st) = f (data st) /\
  isLoadingData (setData f st) = isLoadingData st.
Proof.
  intros Hu. unfold setData, saveEffect. simpl. rewrite Hu. repeat split.
Qed.

Lemma guest_setIsLoadingData (b : bool) (st : State) :
  user st = None ->
  user (setIsLoadingData b st) = None /\ env (setIsLoadingData b st) = env st /\
  timeoutId (setIsLoadingData b st) = None /\
  data (setIsLoadingData b st) = data st /\
  isLoadingData (setIsLoadingData b st) = b.
Proof.
  intros Hu. unfold setIsLoadingData, saveEffect. simpl. rewrite Hu. repeat split.
Qed.

Lemma guest_loaded (d : AppData) (st : State) :
  user st = None ->
  env (setIsLoadingData false (setData (fun _ => d) st)) = env st /\
  timeoutId (setIsLoadingData false (setData (fun _ => d) st)) = None /\
  data (setIsLoadingData false (setData (fun _ => d) st)) = d /\
  isLoadingData (setIsLoadingData false (setData (fun _ => d) st)) = false.
Proof.
  intros Hu.
  destruct (guest_setData (fun _ => d) st Hu) as (Hu1 & He1 & _ & Hd1 & _).
  destruct (guest_setIsLoadingData false _ Hu1) as (_ & He2 & Ht2 & Hd2 & Hl2).
  rewrite He2, Ht2, Hd2, Hl2, He1, Hd1. repeat split.
Qed.

(** X23 -- loading as a guest only reads: the stores are untouched and no
    timeout is left.  Without a local entry (or with an empty one) the
    record is the empty default; a local entry that parses is the record;
    and on a local entry that [JSON.parse] rejects the load stops half way,
    with the loading flag still set. *)
Theorem mountGuest_only_reads (w : Env) :
  env (mountGuest JSON_parse w) = w /\
  timeoutId (mountGuest JSON_parse w) = None /\
  (localStorage w !! DATA_KEY = None \/ localStorage w !! DATA_KEY = Some "" ->
   data (mountGuest JSON_parse w) = defaultData /\
   isLoadingData (mountGuest JSON_parse w) = false) /\
  (forall (s : string) (d : AppData),
      localStorage w !! DATA_KEY = Some s -> s <> "" -> JSON_parse s = Some d ->
      data (mountGuest JSON_parse w) = d /\
      isLoadingData (mountGuest JSON_parse w) = false) /\
  (forall s : string,
      localStorage w !! DATA_KEY = Some s -> s <> "" -> JSON_parse s = None ->
      isLoadingData (mountGuest JSON_parse w) = true /\
      data (mountGuest JSON_parse w) = defaultData).
Proof.
  unfold mountGuest, loadGuestData.
  set (st0 := mkState defaultData true None true None 0 w).
  destruct (guest_setIsLoadingData true st0 eq_refl) as (Hu1 & He1 & Ht1 & Hd1 & Hl1).
  set (st1 := setIsLoadingData true st0) in *.
  change (env st0) with w in He1. change (data st0) with defaultData in Hd1.
  rewrite He1.
  pose proof (guest_loaded defaultData st1 Hu1) as (HeD & HtD & HdD & HlD).
  rewrite He1 in HeD.
  destruct (localStorage w !! DATA_KEY) as [s |] eqn:Hlocal.
  - unfold nonEmpty. destruct (decide (s = "")) as [Hs | Hs].
    + rewrite HeD, HtD, HdD, HlD.
      split; [reflexivity |]. split; [reflexivity |].
      split; [intros _; split; reflexivity |].
      split.
      * intros s' d Hs' Hne _. injection Hs' as <-. contradiction.
      * intros s' Hs' Hne _. injection Hs' as <-. contradiction.
    + destruct (JSON_parse s) as [d |] eqn:Hparse.
      * pose proof (guest_loaded d st1 Hu1) as (Hed & Htd & Hdd & Hld).
        rewrite He1 in Hed. rewrite Hed, Htd, Hdd, Hld.
        split; [reflexivity |]. split; [reflexivity |].
        split.
        { intros [H | H]; [discriminate H |]. injection H as ->. contradiction. }
        split.
        { intros s' d' Hs' _ Hd'. injection Hs' as <-.
          rewrite Hparse in Hd'. injection Hd' as <-. split; reflexivity. }
        { intros s' Hs' _ Hd'. injection Hs' as <-.
          rewrite Hparse in Hd'. discriminate Hd'. }
      * rewrite He1, Ht1, Hd1, Hl1.
        split; [reflexivity |]. split; [reflexivity |].
        split.
        { intros [H | H]; [discriminate H |]. injection H as ->. contradiction. }
        split.
        { intros s' d' Hs' _ Hd'. injection Hs' as <-.
          rewrite Hparse in Hd'. discriminate Hd'. }
        { intros s' _ _ _. split; reflexivity. }
  - rewrite HeD, HtD, HdD, HlD.
    split; [reflexivity |]. split; [reflexivity |].
    split; [intros _; split; reflexivity |].
    split.
    + intros s' d Hs' _ _. discriminate Hs'.
    + intros s' Hs' _ _. discriminate Hs'.
Qed.

End GuestLoad.

(** ** More on the session state holder *)

Section SessionMore.

Variable JSON_parse : string -> option AppData.

Import AuthContext.

Local Abbreviation migrate := (FirestoreService.migrateLocalDataToFirestore JSON_parse).

(** The effect always ends the loading state. *)
Lemma effect_stops_loading (st : State) : loading (effect JSON_parse st) = false.
Proof.
  unfold effect. destruct (decide _); [reflexivity |].
  unfold notify. simpl. unfold authStateCallback. reflexivity.
Qed.

Lemma commit_stops_loading (before : bool) (st : State) :
  loading st = false -> loading (commit JSON_parse before st) = false.
Proof.
  intros H. unfold commit. destruct (Bool.eqb before (isGuest st)); [exact H |].
  destruct (Bool.eqb _ _); apply effect_stops_loading.
Qed.

(** X24 -- no sign-in operation leaves the loading flag set: whether it
    succeeds or throws, [loading] is false when it is over. *)
Theorem signIn_operations_stop_loading (ev : Event) (st : State) :
  match ev with
  | SignInWithGoogle _ | SignInWithEmail _ | SignUpWithEmail _ _
  | SignInWithPhone _ | SignInAsGuest =>
      loading (step JSON_parse st ev) = false
  | _ => True
  end.
Proof.
  unfold step, handle.
  destruct ev as [[u | e] | [u | e] | [u | e] [] | [] | | s | s | s | | u |];
    simpl; try exact I; try reflexivity;
    unfold signedIn, signInAsGuest; apply commit_stops_loading; reflexivity.
Qed.

(** X25 -- the guest flag survives a reload: after the guest entry the
    durable key holds ["true"], and mounting the provider again over the
    same stores gives a guest session (no user, not loading, no observer),
    whatever session the identity provider has cached. *)
Theorem guest_survives_reload (st : State) (cached : option User) :
  guestKey (signInAsGuest JSON_parse st) = Some "true" /\
  isGuest (signInAsGuest JSON_parse st) = true /\
  user (signInAsGuest JSON_parse st) = None /\
  isGuest (mount JSON_parse cached (env (signInAsGuest JSON_parse st))) = true /\
  user (mount JSON_parse cached (env (signInAsGuest JSON_parse st))) = None /\
  loading (mount JSON_parse cached (env (signInAsGuest JSON_parse st))) = false /\
  listening (mount JSON_parse cached (env (signInAsGuest JSON_parse st))) = false.
Proof.
  set (st' := setLoading false
                (exec (localStorage_setItem GUEST_KEY "true")
                      (setUser None (setIsGuest true st)))).
  assert (Hk' : guestKey st' = Some "true") by apply lookup_insert_eq.
  assert (Hentry : signInAsGuest JSON_parse st = st' \/
                   signInAsGuest JSON_parse st
                   = setLoading false (setIsGuest true (setListening false st'))).
  { unfold signInAsGuest. fold st'. unfold commit.
    destruct (Bool.eqb (isGuest st) (isGuest st')); [left; reflexivity |].
    rewrite (effect_guest JSON_parse st' Hk'). simpl. right. reflexivity. }
  assert (Hkey : guestKey (signInAsGuest JSON_parse st) = Some "true").
  { destruct Hentry as [-> | ->]; exact Hk'. }
  split; [exact Hkey |].
  split; [destruct Hentry as [-> | ->]; reflexivity |].
  split; [destruct Hentry as [-> | ->]; reflexivity |].
  unfold mount.
  set (st0 := mkState None true false false cached (env (signInAsGuest JSON_parse st))).
  assert (Hk0 : guestKey st0 = Some "true") by exact Hkey.
  rewrite (effect_guest JSON_parse st0 Hk0). simpl.
  rewrite effect_guest by exact Hk0. repeat split.
Qed.

(** X26 -- what a logout leaves.  The guest flag is false and the durable
    key is gone.  A signed-in user is signed out of the identity provider
    and no user is left.  A guest is not signed out of the provider
    ([signOut] is not called, so the logout cannot throw): the provider's
    session stays, the observer is attached again, and the user is whoever
    that session holds. *)
Theorem logout_outcome (signedOut : bool) (st : State) :
  (isGuest st = true \/ signedOut = true ->
   fst (logout JSON_parse signedOut st) = Ret tt /\
   isGuest (snd (logout JSON_parse signedOut st)) = false /\
   guestKey (snd (logout JSON_parse signedOut st)) = None /\
   currentUser (snd (logout JSON_parse signedOut st))
     = (if isGuest st then currentUser st else None) /\
   user (snd (logout JSON_parse signedOut st))
     = (if isGuest st then currentUser st else None)) /\
  (isGuest st = false -> signedOut = false ->
   logout JSON_parse signedOut st = (Throw "signOut rejected", st)).
Proof.
  split.
  - intros Hcase. unfold logout.
    destruct (isGuest st) eqn:Hguest; simpl.
    + set (st' := exec (localStorage_removeItem GUEST_KEY)
                       (setIsGuest false (setUser None st))).
      assert (Hk : guestKey st' <> Some "true").
      { unfold guestKey, st'. simpl. rewrite lookup_delete_eq. discriminate. }
      destruct (effect_obs_subscribes JSON_parse st' Hk) as (Hu & Hg & _ & Hc & Hkey).
      unfold commit. simpl. rewrite Hg. simpl.
      rewrite Hg, Hu, Hc, Hkey. repeat split. apply lookup_delete_eq.
    + destruct Hcase as [Hbad | ->]; [discriminate Hbad |]. simpl.
      unfold commit. simpl.
      destruct (notify_obs JSON_parse (setCurrentUser None st)) as (_ & _ & _ & Hc & _).
      repeat split; [apply lookup_delete_eq | exact Hc].
  - intros Hguest ->. unfold logout. rewrite Hguest. reflexivity.
Qed.

(** X27 -- a phone sign-in that "succeeds" signs nobody in: the identity
    provider's session is what it was before, and on the login screen (not
    a guest) the user is what it was before too. *)
Theorem phone_signIn_creates_no_session (st : State) :
  isGuest st = false ->
  fst (signInWithPhone JSON_parse true st) = Ret tt /\
  currentUser (snd (signInWithPhone JSON_parse true st)) = currentUser st /\
  user (snd (signInWithPhone JSON_parse true st)) = user st /\
  isGuest (snd (signInWithPhone JSON_parse true st)) = false /\
  env (snd (signInWithPhone JSON_parse true st))
    = snd (localStorage_removeItem GUEST_KEY (env st)).
Proof.
  intros Hguest. unfold signInWithPhone, signedIn, commit. simpl.
  rewrite Hguest. simpl. repeat split.
Qed.


(** X29 -- a successful federated or email sign-in out of a guest session:
    the observer was detached, so the user is only set once the guest flag
    is cleared and the effect attaches it again; the migration then runs
    for the new user on the stores from which the durable guest key has
    already been removed. *)
Theorem guest_signIn_runs_migration (u : User) (st : State) :
  isGuest st = true ->
  listening st = false ->
  user (snd (signInWithGoogle JSON_parse (Resolved u) st)) = Some u /\
  isGuest (snd (signInWithGoogle JSON_parse (Resolved u) st)) = false /\
  listening (snd (signInWithGoogle JSON_parse (Resolved u) st)) = true /\
  guestKey (snd (signInWithGoogle JSON_parse (Resolved u) st)) = None /\
  env (snd (signInWithGoogle JSON_parse (Resolved u) st))
    = snd (migrate (uid u) (snd (localStorage_removeItem GUEST_KEY (env st)))).
Proof.
  intros Hg Hl.
  assert (Hquiet : notify JSON_parse (setCurrentUser (Some u) (setLoading true st))
                   = setCurrentUser (Some u) (setLoading true st)).
  { unfold notify. simpl. rewrite Hl. reflexivity. }
  unfold signInWithGoogle, signedIn, providerSession. simpl. rewrite !Hquiet.
  set (st' := setLoading false
                (exec (localStorage_removeItem GUEST_KEY)
                      (setIsGuest false (setCurrentUser (Some u) (setLoading true st))))).
  assert (Hk : guestKey st' <> Some "true").
  { unfold guestKey, st'. simpl. rewrite lookup_delete_eq. discriminate. }
  unfold commit. simpl. rewrite Hg. simpl.
  rewrite (effect_subscribes JSON_parse st' Hk).
  unfold notify, authStateCallback, exec. simpl.
  split; [reflexivity |]. split; [reflexivity |]. split; [reflexivity |].
  split; [| reflexivity].
  unfold guestKey. simpl.
  rewrite migrate_other_keys by exact keys_differ. apply lookup_delete_eq.
Qed.

End SessionMore.

(** From the login screen a phone sign-in leaves nobody signed in. *)
Lemma phone_signIn_creates_no_session_witness :
  AuthContext.user
    (snd (AuthContext.signInWithPhone sampleParse true sampleUnauthenticated)) = None /\
  AuthContext.currentUser
    (snd (AuthContext.signInWithPhone sampleParse true sampleUnauthenticated)) = None.
Proof.
  destruct (phone_signIn_creates_no_session sampleParse sampleUnauthenticated)
    as (_ & Hc & Hu & _).
  - reflexivity.
  - split; [rewrite Hu | rewrite Hc]; reflexivity.
Defined.


Lemma guest_signIn_runs_migration_witness :
  AuthContext.user
    (snd (AuthContext.signInWithGoogle sampleParse (AuthContext.Resolved sampleUser)
            (AuthContext.signInAsGuest sampleParse sampleUnauthenticated)))
  = Some sampleUser.
Proof.
  apply (guest_signIn_runs_migration sampleParse sampleUser
           (AuthContext.signInAsGuest sampleParse sampleUnauthenticated));
    reflexivity.
Defined.

(** ** The login screen's messages *)

Section Messages.

Import LoginScreen.

(** X30 -- a failed email sign-in or sign-up always shows a message: the
    text is never empty; for each of the six codes the screen knows it is a
    fixed text that does not depend on the provider's message; for any
    other code it is the provider's message, or "Authentication failed"
    when there is none. *)
Theorem emailAuthMessage_never_empty (error : AuthError) :
  emailAuthMessage error <> "" /\
  (In (code error) knownCodes ->
   forall text : string,
     emailAuthMessage (mkAuthError (code error) text) = emailAuthMessage error) /\
  (~ In (code error) knownCodes ->
   emailAuthMessage error = messageOr "Authentication failed" error).
Proof.
  unfold emailAuthMessage, messageOr, knownCodes. simpl.
  split; [| split].
  - repeat case_decide; first [discriminate | assumption].
  - intros Hknown text.
    repeat case_decide; try reflexivity; exfalso; intuition congruence.
  - intros Hunknown.
    repeat case_decide; try reflexivity; exfalso; apply Hunknown; auto 10.
Qed.

End Messages.
